(** * adobo: preprocessing filters, outlier detection and PCA

    A shallow embedding of [adobo/preproc.py] and of the PCA part of
    [adobo/dr.py], with the properties of the matrix preprocessor, the
    outlier detector, the SVD engine and the reduction orchestrator.

    Conventions.
    - A pandas data frame is a record of row labels, column labels and the
      rows of values.  Expression counts are [int64] values, kept as
      integers ([Z]) with sums that wrap around as [int64] sums do;
      normalised values are binary64 floats ([PrimFloat.float]).
    - Routines of other packages (the regular-expression engine behind
      [str.contains], [sklearn.preprocessing.scale], [scipy.linalg.svd],
      [irlbpy.lanczos], [MinCovDet], [np.mean], [np.std], [np.log]) are not
      re-implemented: they are the variables of the sections below, so
      every definition and theorem is parametric in the routines it calls.
    - Printing under [verbose] is left out.
    - A Python exception is a value of [PyError]; code that can raise
      returns a [result]. *)

From Stdlib Require Import List ZArith Bool String Ascii Lia Floats Permutation.
Import ListNotations.

Open Scope string_scope.
Open Scope list_scope.
Open Scope Z_scope.

Set Implicit Arguments.

(* ===================================================================== *)
(** ** Exceptions *)

Inductive PyError : Type :=
| Exception (msg : string)          (* raise Exception('...') *)
| NameError (name : string)         (* a global name that is not bound *)
| AttributeError (msg : string)
| KeyError (key : string)
| ValueError (msg : string)
| TypeError (msg : string)
| LibraryError (msg : string).      (* raised inside an external routine *)

Inductive result (A : Type) : Type :=
| Ok (a : A)
| Raise (e : PyError).

Arguments Ok {A} a.
Arguments Raise {A} e.

Definition bind {A B} (m : result A) (k : A -> result B) : result B :=
  match m with
  | Ok a => k a
  | Raise e => Raise e
  end.

Notation "x <- m ;; k" := (bind m (fun x => k))
  (at level 61, m at next level, right associativity).
Notation "m ;;; k" := (bind m (fun _ => k))
  (at level 61, right associativity).

Definition is_ok {A} (r : result A) : bool :=
  match r with Ok _ => true | Raise _ => false end.

(* ===================================================================== *)
(** ** Data frames *)

Record DataFrame (I C V : Type) : Type := mkDF {
  index : list I;            (* row labels *)
  columns : list C;          (* column labels *)
  values : list (list V)     (* one list per row *)
}.

Arguments mkDF {I C V} index columns values.

Section Selection.
Context {A : Type}.

(** [labels[mask]]: the elements at the positions where the mask is true. *)
Definition mask_select (mask : list bool) (l : list A) : list A :=
  map snd (filter fst (combine mask l)).

(** The elements at the given positions, in the order of the positions. *)
Definition select (pos : list nat) (l : list A) : list A :=
  flat_map (fun j => match nth_error l j with
                     | Some x => [x]
                     | None => []
                     end) pos.

(** The positions, in increasing order, at which [p] holds. *)
Fixpoint positions_from (n : nat) (p : A -> bool) (l : list A) : list nat :=
  match l with
  | [] => []
  | x :: t => if p x then n :: positions_from (S n) p t
              else positions_from (S n) p t
  end.

Definition positions (p : A -> bool) (l : list A) : list nat :=
  positions_from 0 p l.

(** Label-based lookup: for each requested label, every position that
    carries it (pandas returns all of them when a label is repeated). *)
Definition label_positions (eqb : A -> A -> bool) (labels axis : list A)
  : list nat :=
  flat_map (fun l => positions (eqb l) axis) labels.
End Selection.

Section Frames.
Context {I C V : Type}.

Definition shape0 (df : DataFrame I C V) : nat := List.length (index df).
Definition shape1 (df : DataFrame I C V) : nat := List.length (columns df).

Definition take_rows (pos : list nat) (df : DataFrame I C V)
  : DataFrame I C V :=
  mkDF (select pos (index df)) (columns df) (select pos (values df)).

Definition take_cols (pos : list nat) (df : DataFrame I C V)
  : DataFrame I C V :=
  mkDF (index df) (select pos (columns df)) (map (select pos) (values df)).

(** [df[mask]], [df[boolean series]]: rows where the mask is true. *)
Definition rows_where (mask : list bool) (df : DataFrame I C V)
  : DataFrame I C V :=
  mkDF (mask_select mask (index df)) (columns df)
       (mask_select mask (values df)).

(** Column [j] of the values, top to bottom. *)
Definition column (j : nat) (df : DataFrame I C V) : list V :=
  flat_map (fun row => match nth_error row j with
                       | Some x => [x]
                       | None => []
                       end) (values df).

(** The columns of the values, left to right. *)
Definition column_list (df : DataFrame I C V) : list (list V) :=
  map (fun j => column j df) (seq 0 (shape1 df)).

(** [df.transpose()] *)
Definition transpose (df : DataFrame I C V) : DataFrame C I V :=
  mkDF (columns df) (index df) (column_list df).
End Frames.

(** [df[labels]]: columns by label. *)
Definition getitem_cols {I V} (labels : list string)
  (df : DataFrame I string V) : DataFrame I string V :=
  take_cols (label_positions String.eqb labels (columns df)) df.

(** [df.loc[labels]]: rows by label. *)
Definition loc_rows {C V} (labels : list string)
  (df : DataFrame string C V) : DataFrame string C V :=
  take_rows (label_positions String.eqb labels (index df)) df.

(** [labels.isin(others)] *)
Definition isin (others : list string) (labels : list string) : list bool :=
  map (fun l => existsb (String.eqb l) others) labels.

(** [np.sum] of a boolean array. *)
Definition count_true (mask : list bool) : Z :=
  Z.of_nat (List.length (filter (fun b : bool => b) mask)).

Definition Zsum (l : list Z) : Z := fold_right Z.add 0 l.

(** A gene-by-cell matrix of counts, and a matrix of normalised values. *)
Definition ExpMat : Type := DataFrame string string Z.
Definition float64 : Type := PrimFloat.float.
Definition NormMat : Type := DataFrame string string float64.

(** The counts are [int64] values, and a sum of [int64] values is taken in
    [int64]: it wraps around modulo 2^64 into the range -2^63 .. 2^63 - 1. *)
Definition wrap_int64 (z : Z) : Z := (z + 2 ^ 63) mod 2 ^ 64 - 2 ^ 63.

Definition int64_sum (l : list Z) : Z := wrap_int64 (Zsum l).

(** [exp_mat.sum(axis=0)] and [exp_mat.sum(axis=1)] *)
Definition sum_axis0 (m : ExpMat) : list Z := map int64_sum (column_list m).
Definition sum_axis1 (m : ExpMat) : list Z := map int64_sum (values m).

(* ===================================================================== *)
(** ** The dataset object *)

(** Labels of a computed frame: a name, or a position of a [RangeIndex]. *)
Inductive label : Type :=
| Name (s : string)
| Pos (i : nat).

Definition range_index (n : nat) : list label := map Pos (seq 0 n).

Definition ResMat : Type := DataFrame label label float64.

(** [{'comp': ..., 'contr': ..., 'method': ...}] *)
Record PcaResult : Type := mkPca {
  comp : ResMat;
  contr : ResMat;
  method_used : string
}.

(** One entry of the [dr] dictionary of a normalisation; only the PCA entry
    is written by the code modelled here. *)
Inductive DrEntry : Type :=
| DrPca (r : PcaResult)
| DrEmbedding (emb : ResMat).

(** [obj.norm_data[k]]: [{'data': ..., 'hvg': {'genes': ...}, 'dr': {...}}].
    Dictionaries keep their insertion order, which is the order of the
    loop of [pca]; they are association lists. *)
Record NormItem : Type := mkItem {
  data : NormMat;
  hvg_genes : list string;
  dr : list (string * DrEntry)
}.

Record dataset : Type := mkDataset {
  exp_mat : ExpMat;
  exp_mito : option ExpMat;                (* [None] until separated *)
  exp_ERCC : option ExpMat;                (* [None] until separated *)
  low_quality_cells : option (list string);
  norm_data : list (string * NormItem);
  assay : list (string * option string)    (* processing history *)
}.

Definition set_exp_mat (m : ExpMat) (obj : dataset) : dataset :=
  mkDataset m (exp_mito obj) (exp_ERCC obj) (low_quality_cells obj)
            (norm_data obj) (assay obj).

Definition set_exp_mito (m : option ExpMat) (obj : dataset) : dataset :=
  mkDataset (exp_mat obj) m (exp_ERCC obj) (low_quality_cells obj)
            (norm_data obj) (assay obj).

Definition set_exp_ERCC (m : option ExpMat) (obj : dataset) : dataset :=
  mkDataset (exp_mat obj) (exp_mito obj) m (low_quality_cells obj)
            (norm_data obj) (assay obj).

Definition set_low_quality_cells (c : option (list string)) (obj : dataset)
  : dataset :=
  mkDataset (exp_mat obj) (exp_mito obj) (exp_ERCC obj) c
            (norm_data obj) (assay obj).

Definition set_norm_data (n : list (string * NormItem)) (obj : dataset)
  : dataset :=
  mkDataset (exp_mat obj) (exp_mito obj) (exp_ERCC obj)
            (low_quality_cells obj) n (assay obj).

(* ===================================================================== *)
(** ** Floats and the result of the Lanczos routine *)

(** What [irlbpy.lanczos] returns: an object with fields [U], [s], [V]. *)
Record LanczosResult : Type := mkLanczos {
  lanc_U : list (list float64);
  lanc_s : list float64;
  lanc_V : list (list float64)
}.

(** An integer count as a float ([exp_mat.sum(...) / ...] divides integer
    series); the conversion is exact below 2^53. *)
Definition Z2F (z : Z) : float64 :=
  match z with
  | Z0 => 0%float
  | Zpos _ => PrimFloat.of_uint63 (Uint63.of_Z z)
  | Zneg p => PrimFloat.opp (PrimFloat.of_uint63 (Uint63.of_Z (Zpos p)))
  end.

(* ===================================================================== *)
(** ** preproc.py *)

(** [minexpgenes] is an [int] or a [float]; the code tests its type. *)
Inductive threshold : Type :=
| IntThr (n : Z)
| FloatThr (x : float64).

(** [minexpgenes > 0] *)
Definition gt_zero (t : threshold) : bool :=
  match t with
  | IntThr n => 0 <? n
  | FloatThr x => PrimFloat.ltb 0%float x
  end.

(** [sum(x > 0)] over one row. *)
Definition expressed_count (row : list Z) : Z :=
  count_true (map (fun x => 0 <? x) row).

Section Preproc.
(** [re.search(pattern, subject)] with ([true]) or without [re.IGNORECASE],
    as [index.str.contains] applies it to every row label. *)
Variable re_search : string -> bool -> string -> bool.

(** Lines 30 to 32 of [simple_filter]: the cells whose number of reads is
    strictly above [minreads]. *)
Definition keep_cells (exp_mat0 : ExpMat) (minreads : Z) : ExpMat :=
  let cell_counts := sum_axis0 exp_mat0 in
  let r := map (fun c => minreads <? c) cell_counts in
  getitem_cols (mask_select r (columns exp_mat0)) exp_mat0.

(** [simple_filter(obj, minreads, minexpgenes)].  In the [float] branch the
    fraction is the float quotient of the two counts.  When no cell is
    left, [exp_mat.apply] of that branch hands back the empty frame instead
    of a series (the quotient 0/0 fails on the empty row and the failure is
    swallowed), and formatting the number of removed genes on line 45 then
    raises [TypeError]; [obj.exp_mat] is not assigned. *)
Definition simple_filter (obj : dataset) (minreads : Z)
  (minexpgenes : threshold) : result dataset :=
  let exp_mat1 := keep_cells (exp_mat obj) minreads in
  exp_mat2 <-
    (if gt_zero minexpgenes then
       match minexpgenes with
       | IntThr n =>
           let genes_expressed := map expressed_count (values exp_mat1) in
           let target_genes :=
             mask_select (map (fun g => n <? g) genes_expressed)
                         (index exp_mat1) in
           Ok (rows_where (isin target_genes (index exp_mat1)) exp_mat1)
       | FloatThr x =>
           if Nat.eqb (shape1 exp_mat1) 0 then
             Raise (TypeError
               "unsupported format string passed to Series.__format__")
           else
             let genes_expressed :=
               map (fun row => PrimFloat.div
                                 (Z2F (expressed_count row))
                                 (Z2F (Z.of_nat (List.length row))))
                   (values exp_mat1) in
             Ok (rows_where (map (fun g => PrimFloat.ltb x g) genes_expressed)
                            exp_mat1)
       end
     else Ok exp_mat1) ;;
  Ok (set_exp_mat exp_mat2 obj).

(** [remove_empty(obj)] *)
Definition remove_empty (obj : dataset) : dataset :=
  let exp_mat0 := exp_mat obj in
  let data_zero : DataFrame string string bool :=
    mkDF (index exp_mat0) (columns exp_mat0)
         (map (map (fun x => x =? 0)) (values exp_mat0)) in
  let cells := map count_true (column_list data_zero) in
  let genes := map count_true (values data_zero) in
  let total_genes := Z.of_nat (shape0 exp_mat0) in
  let total_cells := Z.of_nat (shape1 exp_mat0) in
  let cells_hit := map (fun c => c =? total_cells) cells in
  let exp_mat1 :=
    if 0 <? count_true cells_hit then
      let r := map negb cells_hit in
      getitem_cols (mask_select r (columns exp_mat0)) exp_mat0
    else exp_mat0 in
  let genes_hit := map (fun g => g =? total_genes) genes in
  let exp_mat2 :=
    if 0 <? count_true genes_hit then
      let r := map negb genes_hit in
      loc_rows (mask_select r (index exp_mat1)) exp_mat1
    else exp_mat1 in
  set_exp_mat exp_mat2 obj.

(** The two frames that [detect_mito] builds when at least one row label
    matches: [(exp_mat, exp_mito)], the remainder and the extracted rows.
    [None] when no label matches. *)
Definition mito_split (exp_mat0 : ExpMat) (mito_pattern : string)
  : option (ExpMat * ExpMat) :=
  let mt_count := map (re_search mito_pattern true) (index exp_mat0) in
  if 0 <? count_true mt_count then
    let exp_mito' := loc_rows (mask_select mt_count (index exp_mat0)) exp_mat0 in
    let exp_mat' :=
      loc_rows (mask_select (map negb mt_count) (index exp_mat0)) exp_mat0 in
    Some (exp_mat', exp_mito')
  else None.

(** [detect_mito(obj, mito_pattern)] *)
Definition detect_mito (obj : dataset) (mito_pattern : string) : dataset :=
  match mito_split (exp_mat obj) mito_pattern with
  | Some (exp_mat', exp_mito') =>
      set_exp_mito (Some exp_mito') (set_exp_mat exp_mat' obj)
  | None => obj
  end.

(** The two local frames of [detect_ERCC_spikes]: [(exp_mat, exp_ERCC)],
    the remainder and the extracted spike-in rows. *)
Definition ERCC_split (exp_mat0 : ExpMat) (ERCC_pattern : string)
  : ExpMat * ExpMat :=
  let s := map (re_search ERCC_pattern false) (index exp_mat0) in
  let exp_ERCC' := rows_where s exp_mat0 in
  let exp_mat' := rows_where (map negb s) exp_mat0 in
  (exp_mat', exp_ERCC').

(** [detect_ERCC_spikes(obj, ERCC_pattern)]: the only attribute assigned
    is [obj.exp_mat]. *)
Definition detect_ERCC_spikes (obj : dataset) (ERCC_pattern : string)
  : dataset :=
  let '(exp_mat', exp_ERCC') := ERCC_split (exp_mat obj) ERCC_pattern in
  set_exp_mat exp_mat' obj.
End Preproc.

(** *** Name resolution and [None] tests in [auto_clean] *)

(** The names bound at module level in [preproc.py]: [import numpy as np],
    [def warn], [import warnings], and the five functions. *)
Definition preproc_globals : list string :=
  ["np"; "warn"; "warnings"; "simple_filter"; "remove_empty"; "detect_mito";
   "detect_ERCC_spikes"; "auto_clean"].

(** Evaluating a global name inside a function of the module. *)
Definition global_name (n : string) : result unit :=
  if existsb (String.eqb n) preproc_globals then Ok tt
  else Raise (NameError n).

Inductive py_type : Type := NoneType | DataFrameType.

(** The Python objects that take part in the tests [type(x) == None]. *)
Inductive py_object : Type :=
| PyNone
| PyTypeObject (t : py_type).

Definition py_type_eqb (s t : py_type) : bool :=
  match s, t with
  | NoneType, NoneType => true
  | DataFrameType, DataFrameType => true
  | _, _ => false
  end.

(** [a == b] *)
Definition py_eq (a b : py_object) : bool :=
  match a, b with
  | PyNone, PyNone => true
  | PyTypeObject s, PyTypeObject t => py_type_eqb s t
  | _, _ => false
  end.

(** [type(x)] for an attribute that holds [None] or a data frame. *)
Definition py_type_of (x : option ExpMat) : py_object :=
  match x with
  | None => PyTypeObject NoneType
  | Some _ => PyTypeObject DataFrameType
  end.

(** [x.sum(axis=0)] *)
Definition attr_sum_axis0 (x : option ExpMat) : result (list Z) :=
  match x with
  | Some m => Ok (sum_axis0 m)
  | None => Raise (AttributeError "'NoneType' object has no attribute 'sum'")
  end.

(** [a / reads_per_cell * 100], element by element.  The series are paired
    by position: the three frames carry the same cell labels when the
    sub-matrices were split from the expression matrix. *)
Definition percent (a reads_per_cell : list Z) : list float64 :=
  map (fun p => PrimFloat.mul (PrimFloat.div (Z2F (fst p)) (Z2F (snd p)))
                              100%float)
      (combine a reads_per_cell).

(** [index.intersection(genes)]: the labels present in both, once each. *)
Definition index_intersection (idx genes : list string) : list string :=
  nodup string_dec (filter (fun g => existsb (String.eqb g) genes) idx).

(** The rows of the data frame built from five equally long series. *)
Fixpoint qc_rows (a b c d e : list float64) : list (list float64) :=
  match a, b, c, d, e with
  | x1 :: a', x2 :: b', x3 :: c', x4 :: d', x5 :: e' =>
      [x1; x2; x3; x4; x5] :: qc_rows a' b' c' d' e'
  | _, _, _, _, _ => []
  end.

Section AutoClean.
(** [MinCovDet(random_state=seed).fit(X).mahalanobis(X)] *)
Variable mincovdet_mahalanobis :
  Z -> list (list float64) -> result (list float64).
Variables np_mean np_std : list float64 -> float64.
Variable np_log : float64 -> float64.

(** [auto_clean(self, rRNA_genes, sd_thres, seed)] *)
Definition auto_clean (self : dataset) (rRNA_genes : list string)
  (sd_thres : float64) (seed : Z) : result dataset :=
  let data := exp_mat self in
  let data_mt := exp_mito self in
  let data_ERCC := exp_ERCC self in
  if py_eq (py_type_of data_ERCC) PyNone then
    Raise (Exception "auto_clean() needs ERCC spikes")
  else if py_eq (py_type_of data_mt) PyNone then
    Raise (Exception "No mitochondrial genes found. Run detect_mito() first.")
  else
    let reads_per_cell := sum_axis0 data in
    global_name "np" ;;;
    let no_genes_det := map expressed_count (column_list data) in
    let data_rRNA := loc_rows (index_intersection (index data) rRNA_genes) data in
    let perc_rRNA := percent (sum_axis0 data_rRNA) reads_per_cell in
    mt_reads <- attr_sum_axis0 data_mt ;;
    let perc_mt := percent mt_reads reads_per_cell in
    ercc_reads <- attr_sum_axis0 data_ERCC ;;
    let perc_ERCC := percent ercc_reads reads_per_cell in
    global_name "pd" ;;;
    global_name "np" ;;;
    let qc_mat := qc_rows (map (fun c => np_log (Z2F c)) reads_per_cell)
                          (map Z2F no_genes_det)
                          perc_rRNA perc_mt perc_ERCC in
    global_name "MinCovDet" ;;;
    mahal_dists <- mincovdet_mahalanobis seed qc_mat ;;
    global_name "np" ;;;
    let MD_mean := np_mean mahal_dists in
    global_name "np" ;;;
    let MD_sd := np_std mahal_dists in
    let thres_lower := PrimFloat.sub MD_mean (PrimFloat.mul MD_sd sd_thres) in
    let thres_upper := PrimFloat.add MD_mean (PrimFloat.mul MD_sd sd_thres) in
    let res := map (fun d => PrimFloat.ltb d thres_lower
                             || PrimFloat.ltb thres_upper d) mahal_dists in
    Ok (set_low_quality_cells (Some (mask_select res (columns data))) self).
End AutoClean.

(* ===================================================================== *)
(** ** dr.py: the SVD engine *)

(** Two-dimensional arrays are lists of rows.  Sums of products are taken
    left to right. *)
Definition matrix : Type := list (list float64).

Definition mat_nrows (m : matrix) : nat := List.length m.
Definition mat_ncols (m : matrix) : nat := List.length (hd [] m).

Definition mat_column (j : nat) (m : matrix) : list float64 :=
  map (fun row => nth j row 0%float) m.

(** [m.transpose()] *)
Definition mat_transpose (m : matrix) : matrix :=
  map (fun j => mat_column j m) (seq 0 (mat_ncols m)).

Definition vdot (x y : list float64) : float64 :=
  fold_left (fun acc p => PrimFloat.add acc (PrimFloat.mul (fst p) (snd p)))
            (combine x y) 0%float.

(** The product of two arrays of matching shapes. *)
Definition matmul (a b : matrix) : matrix :=
  map (fun row => map (fun j => vdot row (mat_column j b))
                      (seq 0 (mat_ncols b))) a.

(** [m[:, 0:k]] *)
Definition first_cols (k : nat) (m : matrix) : matrix := map (firstn k) m.

(** [np.abs(m)] *)
Definition mat_abs (m : matrix) : matrix := map (map PrimFloat.abs) m.

(** [np.diag(s)] *)
Definition np_diag (s : list float64) : matrix :=
  map (fun i => map (fun j => if Nat.eqb i j then nth i s 0%float else 0%float)
                    (seq 0 (List.length s)))
      (seq 0 (List.length s)).

(** [np.dot(a, b)] for two-dimensional arrays. *)
Definition np_dot (a b : matrix) : result matrix :=
  if Nat.eqb (mat_ncols a) (mat_nrows b) then Ok (matmul a b)
  else Raise (ValueError "shapes not aligned").

(** [pd.DataFrame(m)] and [pd.DataFrame(m, index=idx)] *)
Definition new_frame (m : matrix) (idx : option (list string))
  : result ResMat :=
  match idx with
  | None => Ok (mkDF (range_index (mat_nrows m)) (range_index (mat_ncols m)) m)
  | Some l =>
      if Nat.eqb (List.length l) (mat_nrows m)
      then Ok (mkDF (map Name l) (range_index (mat_ncols m)) m)
      else Raise (ValueError "Shape of passed values does not match the index")
  end.

(** [df.dot(v)] for a frame and an array: a frame with the rows of [df]
    and unlabelled columns. *)
Definition frame_dot (df : DataFrame string string float64) (v : matrix)
  : result ResMat :=
  if Nat.eqb (shape1 df) (mat_nrows v)
  then Ok (mkDF (map Name (index df)) (range_index (mat_ncols v))
                (matmul (values df) v))
  else Raise (ValueError "Dot product shape mismatch").

(** [df.iloc[:, 0:k]] *)
Definition iloc_first_cols {I C V} (k : nat) (df : DataFrame I C V)
  : DataFrame I C V :=
  mkDF (index df) (firstn k (columns df)) (map (firstn k) (values df)).

Section Engine.
(** [scipy.linalg.svd(a)]: the triple [(U, s, Vh)]. *)
Variable linalg_svd :
  matrix -> result (matrix * list float64 * matrix).
(** [irlbpy.lanczos(A, nval, maxit, seed)]; the module [irlbpy] belongs to
    the package but its source is not among the files modelled here. *)
Variable lanczos : NormMat -> nat -> nat -> option Z -> result LanczosResult.

(** [irlb(data_norm, ncomp, seed)] *)
Definition irlb (data_norm : NormMat) (ncomp : nat) (seed : option Z)
  : result (ResMat * ResMat) :=
  let inp := data_norm in
  lanc <- lanczos inp ncomp 1000%nat seed ;;
  comp0 <- np_dot (lanc_V lanc) (np_diag (lanc_s lanc)) ;;
  comp1 <- new_frame comp0 None ;;
  contr1 <- new_frame (mat_abs (lanc_U lanc)) (Some (index inp)) ;;
  Ok (comp1, contr1).

(** The part of [svd] after the decomposition [(u, d, vh)] of [inp]. *)
Definition svd_project (inp : DataFrame string string float64)
  (s : matrix * list float64 * matrix) (ncomp : nat)
  : result (ResMat * ResMat) :=
  let v := mat_transpose (snd s) in
  let d := snd (fst s) in
  let s_d := map (fun x => PrimFloat.div x
               (PrimFloat.sqrt (Z2F (Z.of_nat (shape0 inp) - 1)))) d in
  retx <- frame_dot inp v ;;
  let retx := iloc_first_cols ncomp retx in
  let comp1 := retx in
  contr1 <- new_frame (mat_abs (first_cols ncomp v)) (Some (columns inp)) ;;
  Ok (comp1, contr1).

(** [svd(data_norm, ncomp)] *)
Definition svd (data_norm : NormMat) (ncomp : nat)
  : result (ResMat * ResMat) :=
  let inp := data_norm in
  let inp := transpose inp in
  s <- linalg_svd (values inp) ;;
  svd_project inp s ncomp.
End Engine.

(* ===================================================================== *)
(** ** dr.py: the reduction orchestrator *)

(** [d[key] = v] on a dictionary kept as an association list: the entry is
    replaced in place, or appended when the key is new. *)
Fixpoint dict_set {V} (key : string) (v : V) (d : list (string * V))
  : list (string * V) :=
  match d with
  | [] => [(key, v)]
  | (k, w) :: rest =>
      if String.eqb k key then (k, v) :: rest
      else (k, w) :: dict_set key v rest
  end.

(** [d[key]] *)
Fixpoint dict_get {V} (key : string) (d : list (string * V)) : result V :=
  match d with
  | [] => Raise (KeyError key)
  | (k, w) :: rest => if String.eqb k key then Ok w else dict_get key rest
  end.

(** Modelled from the spec: the method [set_assay] of the dataset class is
    not among the source files; it "records that a step ran, with its
    method, in the dataset's processing history (an append-only assay log
    keyed by step name)". *)
Definition set_assay (step : string) (method : option string) (obj : dataset)
  : dataset :=
  mkDataset (exp_mat obj) (exp_mito obj) (exp_ERCC obj)
            (low_quality_cells obj) (norm_data obj)
            (assay obj ++ [(step, method)]).

(** [obj.norm_data[k]['dr']['pca'] = r] *)
Definition store_pca (k : string) (r : PcaResult) (obj : dataset) : dataset :=
  set_norm_data
    (map (fun kv => if String.eqb (fst kv) k
                    then (fst kv,
                          mkItem (data (snd kv)) (hvg_genes (snd kv))
                                 (dict_set "pca" (DrPca r) (dr (snd kv))))
                    else kv)
         (norm_data obj))
    obj.

(** How a call ended: the dataset as the call left it, and the exception
    if one was raised. *)
Definition outcome : Type := (dataset * option PyError)%type.

Section Orchestrator.
(** [sklearn.preprocessing.scale(X, axis=0, with_mean=True, with_std=True)] *)
Variable sklearn_scale : matrix -> result matrix.
Variable linalg_svd :
  matrix -> result (matrix * list float64 * matrix).
Variable lanczos : NormMat -> nat -> nat -> option Z -> result LanczosResult.

(** The frame bound to [data] when the strategy is called: the rows of
    the highly variable genes unless [allgenes]; with [scale], the scaled
    copy [d_scaled] is computed on the way. *)
Definition pca_input (allgenes scale : bool) (item : NormItem)
  : result NormMat :=
  let data0 := data item in
  let data1 :=
    if negb allgenes then
      let hvg := hvg_genes item in
      rows_where (isin hvg (index data0)) data0
    else data0 in
  (if scale then
     d_scaled <- sklearn_scale (values (transpose data1)) ;;
     d_scaled <- new_frame (mat_transpose d_scaled) (Some (index data1)) ;;
     Ok tt
   else Ok tt) ;;;
  Ok data1.

(** The choice of the strategy. *)
Definition pca_dispatch (method : string) (data1 : NormMat) (ncomp : nat)
  (seed : option Z) : result (ResMat * ResMat) :=
  if String.eqb method "irlb" then irlb lanczos data1 ncomp seed
  else if String.eqb method "svd" then svd linalg_svd data1 ncomp
  else Raise (Exception
    "Unkown PCA method spefified. Valid choices are: irlb and svd").

(** One round of the loop over the targets, up to the stored value. *)
Definition pca_target (method : string) (ncomp : nat)
  (allgenes scale : bool) (seed : option Z) (item : NormItem)
  : result PcaResult :=
  data1 <- pca_input allgenes scale item ;;
  cc <- pca_dispatch method data1 ncomp seed ;;
  Ok (mkPca (fst cc) (snd cc) method).

Fixpoint pca_loop (method : string) (ncomp : nat) (allgenes scale : bool)
  (seed : option Z) (targets : list (string * NormItem)) (obj : dataset)
  : outcome :=
  match targets with
  | [] => (obj, None)
  | (k, item) :: rest =>
      match pca_target method ncomp allgenes scale seed item with
      | Raise e => (obj, Some e)
      | Ok r =>
          pca_loop method ncomp allgenes scale seed rest
                   (set_assay "pca" (Some method) (store_pca k r obj))
      end
  end.

(** [pca(obj, method, name, ncomp, allgenes, scale, verbose, seed)] *)
Definition pca (obj : dataset) (method : string) (name : option string)
  (ncomp : nat) (allgenes scale : bool) (seed : option Z) : outcome :=
  match norm_data obj with
  | [] => (obj, Some (Exception
      "Run normalization first before running pca. See here: https://oscar-franzen.github.io/adobo/adobo.html#adobo.normalize.norm"))
  | _ :: _ =>
      let all := match name with
                 | None => true
                 | Some n => String.eqb n ""
                 end in
      if all then
        pca_loop method ncomp allgenes scale seed (norm_data obj) obj
      else
        let n := match name with Some n => n | None => "" end in
        match dict_get n (norm_data obj) with
        | Raise e => (obj, Some e)
        | Ok item =>
            pca_loop method ncomp allgenes scale seed [(n, item)] obj
        end
  end.
End Orchestrator.

(* ===================================================================== *)
(** ** Vocabulary of the statements *)

(** [rest] and [part] split the labels [whole]: no label is in both, and a
    label is in [whole] exactly when it is in one of them. *)
Definition partitions (whole rest part : list string) : Prop :=
  (forall g, ~ (In g rest /\ In g part)) /\
  (forall g, In g whole <-> In g rest \/ In g part).

(** The labels of the columns of [m] whose [int64] sum exceeds [bound]. *)
Definition column_kept (m : ExpMat) (bound : Z) (c : string) : Prop :=
  exists j, nth_error (columns m) j = Some c /\
            bound < int64_sum (column j m).

(** Every row of [m] labelled [g] has no positive count. *)
Definition expressed_nowhere (m : ExpMat) (g : string) : bool :=
  forallb (fun p => negb (String.eqb (fst p) g)
                    || (expressed_count (snd p) =? 0))
          (combine (index m) (values m)).

(* ===================================================================== *)
(** ** Concrete routines and inputs for the worked examples *)

Definition lower_ascii (c : ascii) : ascii :=
  let n := nat_of_ascii c in
  if andb (Nat.leb 65 n) (Nat.leb n 90) then ascii_of_nat (n + 32) else c.

Fixpoint lower (s : string) : string :=
  match s with
  | EmptyString => EmptyString
  | String c t => String (lower_ascii c) (lower t)
  end.

(** [\s] on the ASCII range. *)
Definition is_space (c : ascii) : bool :=
  let n := nat_of_ascii c in
  orb (andb (Nat.leb 9 n) (Nat.leb n 13))
      (orb (andb (Nat.leb 28 n) (Nat.leb n 31)) (Nat.eqb n 32)).

(** [\S+$]: one or more non-space characters up to the end of the subject,
    or up to a final newline. *)
Fixpoint nonspace_to_end (seen : bool) (s : string) : bool :=
  match s with
  | EmptyString => seen
  | String c t =>
      if is_space c
      then andb seen (andb (Nat.eqb (nat_of_ascii c) 10)
                           (match t with EmptyString => true | _ => false end))
      else nonspace_to_end true t
  end.

(** The two default patterns of the module, matched by hand: ['^mt-'] and
    ['^ERCC[_-]\S+$'].  Other patterns are outside this routine, which
    answers [false] for them. *)
Definition re_search_default (pattern : string) (ignore_case : bool)
  (subject : string) : bool :=
  let fold := fun s => if ignore_case then lower s else s in
  if String.eqb pattern "^mt-" then
    String.prefix (fold "mt-") (fold subject)
  else if String.eqb pattern "^ERCC[_-]\S+$" then
    andb (String.prefix (fold "ERCC") (fold subject))
         (match String.get 4 subject with
          | Some c => orb (Ascii.eqb c "_") (Ascii.eqb c "-")
          | None => false
          end)
    && nonspace_to_end false (String.substring 5 (String.length subject - 5) subject)
  else false.

(** Column standardisation in binary64: centre on the mean and divide by the
    population standard deviation, a zero deviation counting as one. *)
Definition fsum (l : list float64) : float64 :=
  fold_left PrimFloat.add l 0%float.

Definition scale_column (col : list float64) : list float64 :=
  let n := Z2F (Z.of_nat (List.length col)) in
  let mean := PrimFloat.div (fsum col) n in
  let centred := map (fun x => PrimFloat.sub x mean) col in
  let var := PrimFloat.div (fsum (map (fun x => PrimFloat.mul x x) centred)) n in
  let sd := PrimFloat.sqrt var in
  let sd := if PrimFloat.eqb sd 0%float then 1%float else sd in
  map (fun x => PrimFloat.div x sd) centred.

Definition standardize (X : matrix) : result matrix :=
  match X with
  | [] => Raise (ValueError "Found array with 0 sample(s)")
  | _ => Ok (mat_transpose (map scale_column (mat_transpose X)))
  end.

(** A singular value decomposition of a matrix that is zero off its
    diagonal: both orthogonal factors are identities and the singular values
    are the diagonal (the examples use non-negative, decreasing diagonals;
    a library may choose other signs for the vectors).  Other matrices are
    outside this routine. *)
Definition identity (n : nat) : matrix :=
  map (fun i => map (fun j => if Nat.eqb i j then 1%float else 0%float)
                    (seq 0 n)) (seq 0 n).

Definition is_diagonal (a : matrix) : bool :=
  forallb (fun i =>
    forallb (fun j => orb (Nat.eqb i j)
                          (PrimFloat.eqb (nth j (nth i a []) 0%float) 0%float))
            (seq 0 (mat_ncols a)))
    (seq 0 (mat_nrows a)).

Definition svd_of_diagonal (a : matrix)
  : result (matrix * list float64 * matrix) :=
  if is_diagonal a then
    Ok (identity (mat_nrows a),
        map (fun i => nth i (nth i a []) 0%float)
            (seq 0 (Nat.min (mat_nrows a) (mat_ncols a))),
        identity (mat_ncols a))
  else Raise (LibraryError "not a diagonal matrix").

Definition empty_dataset (m : ExpMat) : dataset :=
  mkDataset m None None None [] [].

(** Four genes, five cells, the third cell without a single read. *)
Definition counts_4x5 : ExpMat :=
  mkDF ["g1"; "g2"; "g3"; "g4"] ["c1"; "c2"; "c3"; "c4"; "c5"]
       [[1; 2; 0; 3; 4];
        [5; 0; 0; 1; 2];
        [0; 1; 0; 2; 3];
        [4; 4; 0; 1; 0]].

(** Four genes, five cells, the fourth non-zero only in the last cell. *)
Definition counts_one_hit : ExpMat :=
  mkDF ["g1"; "g2"; "g3"; "g4"] ["c1"; "c2"; "c3"; "c4"; "c5"]
       [[1; 2; 1; 3; 4];
        [5; 1; 2; 1; 2];
        [3; 1; 1; 2; 3];
        [0; 0; 0; 0; 7]].

(** Two genes, two cells, the reads of the first cell adding up to 2^63. *)
Definition counts_huge : ExpMat :=
  mkDF ["g1"; "g2"] ["c1"; "c2"]
       [[4611686018427387904; 1];
        [4611686018427387904; 1]].

(** Three genes, three cells, the gene [silent] expressed in no cell. *)
Definition counts_silent : ExpMat :=
  mkDF ["Actb"; "silent"; "Gapdh"] ["c1"; "c2"; "c3"]
       [[4; 2; 7];
        [0; 0; 0];
        [1; 5; 3]].

(** Two spike-ins among four genes. *)
Definition counts_spiked : ExpMat :=
  mkDF ["ERCC-00002"; "Actb"; "ERCC_00130"; "Gapdh"] ["c1"; "c2"]
       [[10; 12];
        [3; 4];
        [7; 9];
        [5; 6]].

Definition counts_mito : ExpMat :=
  mkDF ["mt-Co1"; "mt-Nd1"; "Actb"; "Gapdh"] ["c1"; "c2"]
       [[1; 2];
        [3; 4];
        [5; 6];
        [7; 8]].

(** A normalisation of two genes over two cells. *)
Definition norm_2x2 : NormMat :=
  mkDF ["g1"; "g2"] ["c1"; "c2"]
       [[2%float; 0%float];
        [0%float; 1%float]].

Definition item_2x2 : NormItem := mkItem norm_2x2 ["g1"; "g2"] [].

(** Three genes over two cells. *)
Definition norm_3x2 : NormMat :=
  mkDF ["g1"; "g2"; "g3"] ["c1"; "c2"]
       [[2%float; 0%float];
        [0%float; 1%float];
        [0%float; 0%float]].

Definition normalised_dataset : dataset :=
  mkDataset counts_mito None None None [("standard", item_2x2)] [].

(* ===================================================================== *)
(** ** dr.py: the UMAP embedding *)

(** [obj.norm_data[k]['dr']['umap'] = {'embedding': emb}] *)
Definition store_umap (k : string) (emb : ResMat) (obj : dataset) : dataset :=
  set_norm_data
    (map (fun kv => if String.eqb (fst kv) k
                    then (fst kv,
                          mkItem (data (snd kv)) (hvg_genes (snd kv))
                                 (dict_set "umap" (DrEmbedding emb)
                                           (dr (snd kv))))
                    else kv)
         (norm_data obj))
    obj.

Section Umap.
(** [um.UMAP(random_state=seed, ...).fit_transform(X)] on the values of
    [X]; further keyword arguments belong to the routine. *)
Variable umap_fit_transform : option Z -> matrix -> result matrix.

(** The array [X] of one target: the normalised matrix as it is stored
    (genes by cells), or [item['dr']['pca']['comp']]. *)
Definition umap_input (run_on_PCA : bool) (item : NormItem) : result matrix :=
  if negb run_on_PCA then Ok (values (data item))
  else
    entry <- dict_get "pca" (dr item) ;;
    match entry with
    | DrPca r => Ok (values (comp r))
    | DrEmbedding _ => Raise (KeyError "comp")
    end.

(** One round of the loop, up to the stored frame. *)
Definition umap_target (run_on_PCA : bool) (seed : option Z)
  (item : NormItem) : result ResMat :=
  X <- umap_input run_on_PCA item ;;
  emb <- umap_fit_transform seed X ;;
  new_frame emb None.

Fixpoint umap_loop (run_on_PCA : bool) (seed : option Z)
  (targets : list (string * NormItem)) (obj : dataset) : outcome :=
  match targets with
  | [] => (obj, None)
  | (k, item) :: rest =>
      match umap_target run_on_PCA seed item with
      | Raise e => (obj, Some e)
      | Ok emb => umap_loop run_on_PCA seed rest (store_umap k emb obj)
      end
  end.

(** The loop, then [obj.set_assay('umap')] once if the loop came through. *)
Definition umap_run (run_on_PCA : bool) (seed : option Z)
  (targets : list (string * NormItem)) (obj : dataset) : outcome :=
  match umap_loop run_on_PCA seed targets obj with
  | (obj', None) => (set_assay "umap" None obj', None)
  | (obj', Some e) => (obj', Some e)
  end.

(** [umap(obj, run_on_PCA, name, seed, verbose, **args)] *)
Definition umap (obj : dataset) (run_on_PCA : bool) (name : option string)
  (seed : option Z) : outcome :=
  match norm_data obj with
  | [] => (obj, Some (Exception
      "Run normalization first before running umap. See here: https://oscar-franzen.github.io/adobo/adobo.html#adobo.normalize.norm"))
  | _ :: _ =>
      let all := match name with
                 | None => true
                 | Some n => String.eqb n ""
                 end in
      if all then umap_run run_on_PCA seed (norm_data obj) obj
      else
        let n := match name with Some n => n | None => "" end in
        match dict_get n (norm_data obj) with
        | Raise e => (obj, Some e)
        | Ok item => umap_run run_on_PCA seed [(n, item)] obj
        end
  end.
End Umap.

(* ===================================================================== *)
(** ** Vocabulary of the further statements *)

(** No label occurs twice. *)
Fixpoint unique_labels (l : list string) : bool :=
  match l with
  | [] => true
  | x :: t => negb (existsb (String.eqb x) t) && unique_labels t
  end.

(** One row of values per row label, one value per column label in each. *)
Definition well_formed {V} (m : DataFrame string string V) : bool :=
  Nat.eqb (List.length (values m)) (List.length (index m))
  && forallb (fun row => Nat.eqb (List.length row) (List.length (columns m)))
             (values m).

(** [d] has no entry under [key]. *)
Definition dict_lacks {V} (key : string) (d : list (string * V)) : bool :=
  negb (existsb (fun kv => String.eqb (fst kv) key) d).

(** The parts of a dataset that the reductions read but never write: the
    three count matrices, the flagged cells and, for every normalisation in
    order, its name, matrix and highly variable genes. *)
Definition reduction_inputs (obj : dataset) :=
  (exp_mat obj, exp_mito obj, exp_ERCC obj, low_quality_cells obj,
   map (fun kv => (fst kv, data (snd kv), hvg_genes (snd kv)))
       (norm_data obj)).

(** The two tests of [remove_empty], position by position: [true] where a
    column has as many zeros as there are cells, and where a row has as
    many zeros as there are genes. *)
Definition cells_hit (m : ExpMat) : list bool :=
  map (fun c => c =? Z.of_nat (shape1 m))
      (map count_true
           (column_list
              (mkDF (index m) (columns m)
                    (map (map (fun x => x =? 0)) (values m))))).

Definition genes_hit (m : ExpMat) : list bool :=
  map (fun g => g =? Z.of_nat (shape0 m))
      (map count_true (map (map (fun x => x =? 0)) (values m))).

(** Every normalisation whose name is in [done] has a PCA entry. *)
Definition covered (done : list string) (obj : dataset) : Prop :=
  forall k item, In (k, item) (norm_data obj) -> In k done ->
                 dict_lacks "pca" (dr item) = false.

(** A reducer that keeps the first two columns of its input, and a dataset
    with two normalisations, for the worked examples. *)
Definition first_two_columns (seed : option Z) (X : matrix) : result matrix :=
  Ok (first_cols 2 X).

(** A truncated decomposition of a gene-by-cell matrix that is zero off
    its diagonal, for at most as many triplets as the smaller dimension;
    it stands for the Lanczos routine in the worked examples. *)
Definition lanczos_of_diagonal (A : NormMat) (nval maxit : nat)
  (seed : option Z) : result LanczosResult :=
  if is_diagonal (values A)
     && Nat.leb nval (Nat.min (shape0 A) (shape1 A))
  then Ok (mkLanczos
             (first_cols nval (identity (shape0 A)))
             (firstn nval (map (fun i => nth i (nth i (values A) []) 0%float)
                               (seq 0 (Nat.min (shape0 A) (shape1 A)))))
             (first_cols nval (identity (shape1 A))))
  else Raise (LibraryError "outside the example routine").

(** Three genes over three cells, the second gene and the second cell
    without reads. *)
Definition counts_square : ExpMat :=
  mkDF ["g1"; "g2"; "g3"] ["c1"; "c2"; "c3"]
       [[1; 0; 2];
        [0; 0; 0];
        [3; 0; 4]].

(** Three genes over two cells, the second gene without reads. *)
Definition counts_tall : ExpMat :=
  mkDF ["g1"; "g2"; "g3"] ["c1"; "c2"]
       [[1; 0];
        [0; 0];
        [2; 3]].

(** The PCA result of [item_2x2] under the strategy [svd] with the
    decomposition [svd_of_diagonal]. *)
Definition pca_result_2x2 : PcaResult :=
  mkPca (mkDF [Name "c1"; Name "c2"] [Pos 0%nat; Pos 1%nat]
              [[2%float; 0%float]; [0%float; 1%float]])
        (mkDF [Name "g1"; Name "g2"] [Pos 0%nat; Pos 1%nat]
              [[1%float; 0%float]; [0%float; 1%float]])
        "svd".

Definition two_normalisations : dataset :=
  mkDataset counts_mito None None None
            [("standard", item_2x2); ("wide", mkItem norm_3x2 ["g1"; "g3"] [])]
            [].

(* ===================================================================== *)
(** * Properties *)

(** ** Selection by mask, by position and by label *)

Section SelectionFacts.
Context {A : Type}.

Lemma mask_select_map (p : A -> bool) (l : list A) :
  mask_select (map p l) l = filter p l.
Proof.
  unfold mask_select.
  induction l as [|x t IH]; simpl; [reflexivity|].
  destruct (p x); simpl; rewrite IH; reflexivity.
Qed.

Lemma mask_select_In (mask : list bool) (l : list A) (x : A) :
  In x (mask_select mask l) <->
  exists j, nth_error mask j = Some true /\ nth_error l j = Some x.
Proof.
  unfold mask_select. revert l.
  induction mask as [|b mask IH]; intros [|y l]; simpl.
  - split; [tauto|]. intros [[|j] [H _]]; discriminate.
  - split; [tauto|]. intros [[|j] [H _]]; discriminate.
  - split; [tauto|]. intros [[|j] [_ H]]; discriminate.
  - destruct b; simpl.
    + rewrite IH. split.
      * intros [-> | [j Hj]]; [exists 0%nat; auto | exists (S j); auto].
      * intros [[|j] [Hm Hl]]; simpl in *.
        -- left. congruence.
        -- right. exists j. auto.
    + rewrite IH. split.
      * intros [j Hj]. exists (S j). auto.
      * intros [[|j] [Hm Hl]]; simpl in *; [discriminate|].
        exists j. auto.
Qed.

Lemma select_In (pos : list nat) (l : list A) (x : A) :
  In x (select pos l) <-> exists j, In j pos /\ nth_error l j = Some x.
Proof.
  unfold select. rewrite in_flat_map. split.
  - intros [j [Hj Hx]]. exists j. split; [assumption|].
    destruct (nth_error l j) as [y|]; simpl in Hx; [|tauto].
    destruct Hx as [-> | []]. reflexivity.
  - intros [j [Hj Hx]]. exists j. split; [assumption|].
    rewrite Hx. simpl. auto.
Qed.

Lemma positions_from_In (p : A -> bool) (l : list A) (n j : nat) :
  In j (positions_from n p l) <->
  exists i x, j = (n + i)%nat /\ nth_error l i = Some x /\ p x = true.
Proof.
  revert n. induction l as [|y t IH]; intros n; simpl.
  - split; [tauto|]. intros [[|i] [x [_ [H _]]]]; discriminate.
  - assert (Hrest : In j (positions_from (S n) p t) <->
                    exists i x, j = (n + S i)%nat /\
                                nth_error t i = Some x /\ p x = true).
    { rewrite IH. split; intros [i [x [E H]]]; exists i, x;
        (split; [lia | exact H]). }
    destruct (p y) eqn:Hy; simpl; rewrite Hrest; split.
    + intros [<- | [i [x [E H]]]].
      * exists 0%nat, y. simpl. repeat split; [lia | exact Hy].
      * exists (S i), x. simpl. auto.
    + intros [[|i] [x [E [Hn Hp]]]]; simpl in *.
      * left. lia.
      * right. exists i, x. auto.
    + intros [i [x [E H]]]. exists (S i), x. simpl. auto.
    + intros [[|i] [x [E [Hn Hp]]]]; simpl in *.
      * congruence.
      * exists i, x. auto.
Qed.

Lemma positions_In (p : A -> bool) (l : list A) (j : nat) :
  In j (positions p l) <-> exists x, nth_error l j = Some x /\ p x = true.
Proof.
  unfold positions. rewrite positions_from_In. split.
  - intros [i [x [-> H]]]. exists x. exact H.
  - intros [x H]. exists j, x. auto.
Qed.
End SelectionFacts.

Lemma label_select_In (labels axis : list string) (x : string) :
  In x (select (label_positions String.eqb labels axis) axis) <->
  In x labels /\ In x axis.
Proof.
  rewrite select_In. unfold label_positions. split.
  - intros [j [Hj Hx]]. apply in_flat_map in Hj as [l [Hl Hp]].
    apply positions_In in Hp as [y [Hy He]].
    apply String.eqb_eq in He. subst y.
    assert (l = x) by congruence. subst l.
    split; [assumption | eapply nth_error_In; eassumption].
  - intros [Hl Ha]. apply In_nth_error in Ha as [j Hj].
    exists j. split; [|assumption].
    apply in_flat_map. exists x. split; [assumption|].
    apply positions_In. exists x. split; [assumption | apply String.eqb_refl].
Qed.

Lemma existsb_eqb_In (x : string) (l : list string) :
  existsb (String.eqb x) l = true <-> In x l.
Proof.
  rewrite existsb_exists. split.
  - intros [y [Hy He]]. apply String.eqb_eq in He. subst. assumption.
  - intros H. exists x. split; [assumption | apply String.eqb_refl].
Qed.

Lemma count_true_nonneg (mask : list bool) : 0 <= count_true mask.
Proof. unfold count_true. lia. Qed.

Lemma count_true_zero (mask : list bool) :
  count_true mask = 0 <-> forall b, In b mask -> b = false.
Proof.
  unfold count_true. induction mask as [|b t IH]; simpl.
  - split; [intros _ b [] | reflexivity].
  - destruct b; simpl.
    + split; [lia|]. intros H. specialize (H true (or_introl eq_refl)).
      discriminate.
    + rewrite IH. split.
      * intros H b [<- | Hb]; [reflexivity | apply H; assumption].
      * intros H b Hb. apply H. right. assumption.
Qed.

(** ** The pattern-based splits *)

Lemma filter_partitions (p : string -> bool) (idx : list string) :
  partitions idx (filter (fun g => negb (p g)) idx) (filter p idx).
Proof.
  split; intros g.
  - rewrite !filter_In. intros [[_ H1] [_ H2]]. rewrite H2 in H1. discriminate.
  - rewrite !filter_In. destruct (p g); simpl; intuition discriminate.
Qed.

Lemma ERCC_split_index re_search (m : ExpMat) (pat : string) :
  index (fst (ERCC_split re_search m pat)) =
    filter (fun g => negb (re_search pat false g)) (index m) /\
  index (snd (ERCC_split re_search m pat)) =
    filter (re_search pat false) (index m).
Proof.
  unfold ERCC_split, rows_where; simpl.
  rewrite map_map, !mask_select_map. split; reflexivity.
Qed.

Lemma loc_rows_index_In {C V} (labels : list string)
  (df : DataFrame string C V) (g : string) :
  In g (index (loc_rows labels df)) <-> In g labels /\ In g (index df).
Proof. unfold loc_rows, take_rows; simpl. apply label_select_In. Qed.

Lemma getitem_cols_columns_In {I V} (labels : list string)
  (df : DataFrame I string V) (c : string) :
  In c (columns (getitem_cols labels df)) <-> In c labels /\ In c (columns df).
Proof. unfold getitem_cols, take_cols; simpl. apply label_select_In. Qed.

(** C7.  Both pattern-based splits partition the row labels of their input:
    the remainder and the extracted frame built by [detect_ERCC_spikes]
    share no row label and together carry exactly the labels of the input;
    the same holds for the two frames built by [detect_mito] when a label
    matches, and when none matches nothing is extracted (no label of the
    input matches the pattern). *)
Theorem split_partitions_row_labels
  (re_search : string -> bool -> string -> bool) (m : ExpMat)
  (ERCC_pattern mito_pattern : string) :
  partitions (index m)
             (index (fst (ERCC_split re_search m ERCC_pattern)))
             (index (snd (ERCC_split re_search m ERCC_pattern)))
  /\ match mito_split re_search m mito_pattern with
     | Some (rest, mito) => partitions (index m) (index rest) (index mito)
     | None => forall g, In g (index m) -> re_search mito_pattern true g = false
     end.
Proof.
  split.
  - destruct (ERCC_split_index re_search m ERCC_pattern) as [-> ->].
    apply filter_partitions.
  - unfold mito_split.
    set (p := re_search mito_pattern true).
    destruct (0 <? count_true (map p (index m))) eqn:Hc.
    + rewrite map_map, !mask_select_map.
      pose proof (filter_partitions p (index m)) as [Hd Hu].
      split; intros g; rewrite !loc_rows_index_In.
      * intros [[H1 _] [H2 _]]. apply (Hd g). auto.
      * rewrite (Hu g). rewrite !filter_In. tauto.
    + intros g Hg. apply Z.ltb_ge in Hc.
      pose proof (count_true_nonneg (map p (index m))) as Hn.
      assert (Hz : count_true (map p (index m)) = 0) by lia.
      rewrite count_true_zero in Hz. apply Hz. apply in_map. assumption.
Qed.

(** What [detect_mito] stores is the pair of frames of [mito_split]. *)
Lemma detect_mito_fields re_search (obj : dataset) (pat : string) :
  match mito_split re_search (exp_mat obj) pat with
  | Some (rest, mito) =>
      exp_mat (detect_mito re_search obj pat) = rest /\
      exp_mito (detect_mito re_search obj pat) = Some mito
  | None => detect_mito re_search obj pat = obj
  end.
Proof.
  unfold detect_mito.
  destruct (mito_split re_search (exp_mat obj) pat) as [[rest mito]|];
    simpl; auto.
Qed.

Example detect_mito_scenario :
  let obj := detect_mito re_search_default (empty_dataset counts_mito) "^mt-" in
  index (exp_mat obj) = ["Actb"; "Gapdh"] /\
  option_map (@index _ _ _) (exp_mito obj) = Some ["mt-Co1"; "mt-Nd1"].
Proof. vm_compute. split; reflexivity. Qed.

(** Whatever the pattern and the dataset, [detect_ERCC_spikes] assigns the
    remainder to [exp_mat] and leaves every other attribute, [exp_ERCC]
    included, as it was. *)
Lemma detect_ERCC_spikes_fields re_search (obj : dataset) (pat : string) :
  let obj' := detect_ERCC_spikes re_search obj pat in
  exp_mat obj' = fst (ERCC_split re_search (exp_mat obj) pat) /\
  exp_ERCC obj' = exp_ERCC obj /\
  exp_mito obj' = exp_mito obj /\
  low_quality_cells obj' = low_quality_cells obj /\
  norm_data obj' = norm_data obj /\
  assay obj' = assay obj.
Proof. unfold detect_ERCC_spikes, ERCC_split; simpl. repeat split. Qed.

(** C10.  On a dataset with two spike-in rows among four genes,
    [detect_ERCC_spikes] leaves the two other genes in [exp_mat], but the
    attribute [exp_ERCC] is still [None]: the extracted frame, which holds
    the two spike-in rows, is not stored. *)
Theorem detect_ERCC_spikes_loses_spikes :
  let obj := empty_dataset counts_spiked in
  let obj' := detect_ERCC_spikes re_search_default obj "^ERCC[_-]\S+$" in
  index (exp_mat obj') = ["Actb"; "Gapdh"] /\
  index (snd (ERCC_split re_search_default (exp_mat obj) "^ERCC[_-]\S+$"))
    = ["ERCC-00002"; "ERCC_00130"] /\
  exp_ERCC obj' = None.
Proof. vm_compute. repeat split. Qed.

(** ** [remove_empty] *)

(** C4.  On the matrix of four genes and five cells whose third cell has no
    read, [remove_empty] changes nothing: the result still has five cells
    and its third column sums to zero.  The test for an empty cell compares
    the number of zeros in a column (at most the number of genes, 4) with
    the number of cells (5). *)
Theorem remove_empty_keeps_empty_cell :
  let m := exp_mat (remove_empty (empty_dataset counts_4x5)) in
  m = counts_4x5 /\
  shape1 m = 5%nat /\
  nth_error (sum_axis0 m) 2 = Some 0.
Proof. vm_compute. repeat split. Qed.

(** The same exchange of the two dimensions makes [remove_empty] drop a
    gene that has reads: with four genes, a row with exactly four zeros. *)
Example remove_empty_drops_expressed_gene :
  let m := exp_mat (remove_empty (empty_dataset counts_one_hit)) in
  nth_error (sum_axis1 counts_one_hit) 3 = Some 7 /\
  index m = ["g1"; "g2"; "g3"].
Proof. vm_compute. split; reflexivity. Qed.

(** ** [simple_filter] *)

Lemma nth_error_map_seq {B} (f : nat -> B) (n j : nat) :
  nth_error (map f (seq 0 n)) j = if (j <? n)%nat then Some (f j) else None.
Proof.
  rewrite nth_error_map.
  destruct (Nat.ltb_spec j n) as [Hlt | Hge].
  - rewrite (nth_error_nth' _ 0%nat) by (rewrite length_seq; exact Hlt).
    rewrite seq_nth by exact Hlt. reflexivity.
  - assert (H : nth_error (seq 0 n) j = None)
      by (apply nth_error_None; rewrite length_seq; exact Hge).
    rewrite H. reflexivity.
Qed.

(** The two ways in which [simple_filter] cannot raise. *)
Lemma simple_filter_gene_filter_off (obj : dataset) (minreads : Z)
  (t : threshold) :
  gt_zero t = false ->
  simple_filter obj minreads t =
  Ok (set_exp_mat (keep_cells (exp_mat obj) minreads) obj).
Proof. intros Ht. unfold simple_filter. rewrite Ht. reflexivity. Qed.

Lemma simple_filter_integer (obj : dataset) (minreads n : Z) :
  0 < n ->
  let m1 := keep_cells (exp_mat obj) minreads in
  simple_filter obj minreads (IntThr n) =
  Ok (set_exp_mat
        (rows_where
           (isin (mask_select (map (fun g => n <? g)
                                   (map expressed_count (values m1)))
                              (index m1))
                 (index m1))
           m1)
        obj).
Proof.
  intros Hn m1. unfold simple_filter.
  assert (Hg : gt_zero (IntThr n) = true) by (apply Z.ltb_lt; exact Hn).
  rewrite Hg. reflexivity.
Qed.

(** When [simple_filter] returns, the cells are those of [keep_cells]; it
    raises only in the [float] branch, with no cell left. *)
Lemma simple_filter_outcome (obj : dataset) (minreads : Z) (t : threshold) :
  match simple_filter obj minreads t with
  | Ok obj' =>
      columns (exp_mat obj') = columns (keep_cells (exp_mat obj) minreads)
  | Raise _ =>
      (exists x, t = FloatThr x) /\ gt_zero t = true /\
      columns (keep_cells (exp_mat obj) minreads) = []
  end.
Proof.
  unfold simple_filter.
  destruct (gt_zero t) eqn:Ht; [|reflexivity].
  destruct t as [n|x]; [reflexivity|].
  destruct (Nat.eqb_spec (shape1 (keep_cells (exp_mat obj) minreads)) 0)
    as [E|E]; cbn [bind exp_mat set_exp_mat].
  - split; [exists x; reflexivity|]. split; [reflexivity|].
    unfold shape1 in E. apply length_zero_iff_nil. exact E.
  - reflexivity.
Qed.

(** The cells of [keep_cells] are those of a column whose [int64] sum is
    strictly above [minreads]. *)
Lemma keep_cells_columns_In (m : ExpMat) (minreads : Z) (c : string) :
  In c (columns (keep_cells m minreads)) <-> column_kept m minreads c.
Proof.
  unfold keep_cells. cbv zeta.
  rewrite getitem_cols_columns_In, mask_select_In.
  unfold column_kept, sum_axis0, column_list, shape1. split.
  - intros [[j [Hm Hc]] _]. exists j. split; [exact Hc|].
    rewrite !map_map, nth_error_map_seq in Hm.
    destruct (j <? List.length (columns m))%nat; [|discriminate].
    injection Hm as Hm. apply Z.ltb_lt. exact Hm.
  - intros [j [Hc Hs]]. split; [|eapply nth_error_In; exact Hc].
    exists j. split; [|exact Hc].
    rewrite !map_map, nth_error_map_seq.
    assert (Hj : (j < List.length (columns m))%nat)
      by (apply nth_error_Some; congruence).
    apply Nat.ltb_lt in Hj. rewrite Hj.
    apply Z.ltb_lt in Hs. rewrite Hs. reflexivity.
Qed.

Lemma keep_cells_rows (m : ExpMat) (minreads : Z) :
  index (keep_cells m minreads) = index m /\
  List.length (values (keep_cells m minreads)) = List.length (values m).
Proof.
  unfold keep_cells, getitem_cols, take_cols. cbn [index values].
  split; [reflexivity | apply length_map].
Qed.

(** C8, as it fails: with [minreads = 0] the cell without reads is removed
    from the matrix of four genes and five cells. *)
Lemma simple_filter_zero_reads_drops_cell :
  simple_filter (empty_dataset counts_4x5) 0 (IntThr 0) =
    Ok (empty_dataset
          (mkDF ["g1"; "g2"; "g3"; "g4"] ["c1"; "c2"; "c4"; "c5"]
                [[1; 2; 3; 4]; [5; 0; 1; 2]; [0; 1; 2; 3]; [4; 4; 1; 0]])) /\
  ["c1"; "c2"; "c4"; "c5"] <> columns counts_4x5.
Proof. split; [vm_compute; reflexivity | discriminate]. Qed.

(** The sums are those of [int64]: two counts of 2^62 in one cell add up to
    -2^63, and the cell is removed with [minreads = 0]. *)
Example simple_filter_wrapped_sum :
  sum_axis0 counts_huge = [- 2 ^ 63; 2] /\
  simple_filter (empty_dataset counts_huge) 0 (IntThr 0) =
    Ok (empty_dataset (mkDF ["g1"; "g2"] ["c2"] [[1]; [1]])) /\
  simple_filter (empty_dataset counts_huge) 0 (IntThr 1) =
    Ok (empty_dataset (mkDF [] ["c2"] [])).
Proof. vm_compute. repeat split. Qed.

(** With the default [float] threshold and no cell above [minreads], the
    call raises and no dataset is returned. *)
Example simple_filter_no_cell_left :
  simple_filter (empty_dataset counts_4x5) 1000 (FloatThr 0.5%float) =
  Raise (TypeError "unsupported format string passed to Series.__format__").
Proof. vm_compute. reflexivity. Qed.

(** C8, amended.  With [minreads = 0], when [simple_filter] returns it has
    kept exactly the cells whose column sum, taken in [int64], is strictly
    positive (a cell without reads is removed), and it raises only for a
    [float] gene threshold above zero when no cell has a positive sum;
    with a gene threshold of zero, integer or float, it returns and has
    removed no row. *)
Theorem simple_filter_zero_thresholds (obj : dataset) (minreads : Z)
  (t : threshold) :
  match simple_filter obj 0 t with
  | Ok obj' =>
      forall c, In c (columns (exp_mat obj')) <-> column_kept (exp_mat obj) 0 c
  | Raise _ =>
      (exists x, t = FloatThr x) /\ gt_zero t = true /\
      forall c, ~ column_kept (exp_mat obj) 0 c
  end /\
  (exists obj',
     simple_filter obj minreads (IntThr 0) = Ok obj' /\
     index (exp_mat obj') = index (exp_mat obj) /\
     List.length (values (exp_mat obj')) = List.length (values (exp_mat obj)))
  /\
  (exists obj',
     simple_filter obj minreads (FloatThr 0%float) = Ok obj' /\
     index (exp_mat obj') = index (exp_mat obj) /\
     List.length (values (exp_mat obj')) = List.length (values (exp_mat obj))).
Proof.
  split.
  - pose proof (simple_filter_outcome obj 0 t) as H.
    destruct (simple_filter obj 0 t) as [obj'|e].
    + intros c. rewrite H. apply keep_cells_columns_In.
    + destruct H as [Hx [Hg Hnil]]. split; [exact Hx|]. split; [exact Hg|].
      intros c Hc. apply keep_cells_columns_In in Hc.
      rewrite Hnil in Hc. destruct Hc.
  - pose proof (keep_cells_rows (exp_mat obj) minreads) as [Hi Hv].
    split; eexists; (split; [apply simple_filter_gene_filter_off; reflexivity|]);
      cbn [exp_mat set_exp_mat]; split; assumption.
Qed.

Lemma expressed_count_zero (row : list Z) :
  expressed_count row = 0 <-> forall x, In x row -> x <= 0.
Proof.
  unfold expressed_count. rewrite count_true_zero. split.
  - intros H x Hx. apply Z.ltb_ge. apply H. apply in_map_iff. eauto.
  - intros H b Hb. apply in_map_iff in Hb as [x [<- Hx]].
    apply Z.ltb_ge. auto.
Qed.

Lemma expressed_count_select (pos : list nat) (row : list Z) :
  expressed_count row = 0 -> expressed_count (select pos row) = 0.
Proof.
  rewrite !expressed_count_zero. intros H x Hx.
  apply select_In in Hx as [j [_ Hj]].
  apply H. eapply nth_error_In. exact Hj.
Qed.

Lemma nth_error_combine {A B} (a : list A) (b : list B) (j : nat) x y :
  nth_error a j = Some x -> nth_error b j = Some y ->
  nth_error (combine a b) j = Some (x, y).
Proof.
  revert b j. induction a as [|u a IH]; intros [|v b] [|j]; simpl;
    try discriminate.
  - congruence.
  - apply IH.
Qed.

Lemma expressed_nowhere_row (m : ExpMat) (g : string) (j : nat)
  (row : list Z) :
  expressed_nowhere m g = true ->
  nth_error (index m) j = Some g -> nth_error (values m) j = Some row ->
  expressed_count row = 0.
Proof.
  unfold expressed_nowhere. rewrite forallb_forall. intros H Hi Hv.
  specialize (H (g, row)
                (nth_error_In _ _ (@nth_error_combine _ _ _ _ _ _ _ Hi Hv))).
  simpl in H. rewrite String.eqb_refl in H. simpl in H.
  apply Z.eqb_eq. exact H.
Qed.

(** With a positive integer threshold a gene expressed in no cell goes. *)
Lemma simple_filter_positive_drops_silent (obj : dataset) (minreads n : Z)
  (g : string) :
  expressed_nowhere (exp_mat obj) g = true -> 0 < n ->
  exists obj',
    simple_filter obj minreads (IntThr n) = Ok obj' /\
    ~ In g (index (exp_mat obj')).
Proof.
  intros Hs Hn. eexists. split; [apply simple_filter_integer; exact Hn|].
  intros Hin. cbn [exp_mat set_exp_mat rows_where index] in Hin.
  unfold isin in Hin. rewrite mask_select_map in Hin.
  apply filter_In in Hin as [_ Ht].
  apply existsb_eqb_In in Ht.
  apply mask_select_In in Ht as [j [Hm Hj]].
  unfold keep_cells, getitem_cols, take_cols in Hm, Hj.
  cbn [index values] in Hm, Hj.
  rewrite !nth_error_map in Hm.
  destruct (nth_error (values (exp_mat obj)) j) as [row|] eqn:Hrow;
    [|discriminate].
  simpl in Hm. injection Hm as Hm. apply Z.ltb_lt in Hm.
  pose proof (@expressed_nowhere_row _ _ _ _ Hs Hj Hrow) as Hz.
  rewrite (@expressed_count_select _ _ Hz) in Hm. lia.
Qed.

(** C9, as it fails: with the integer threshold 0 the gene that no cell
    expresses is still in the matrix, which comes back as it was. *)
Lemma simple_filter_integer_zero_keeps_silent :
  expressed_nowhere counts_silent "silent" = true /\
  simple_filter (empty_dataset counts_silent) 0 (IntThr 0) =
    Ok (empty_dataset counts_silent) /\
  In "silent" (index counts_silent).
Proof. split; [reflexivity|]. split; [vm_compute; reflexivity | simpl; auto]. Qed.

(** C9, amended.  A gene of the input that no cell expresses is kept by
    [simple_filter] when the gene threshold is the integer 0 (the gene
    filter runs only for a threshold above zero), and is removed for every
    positive integer threshold; with an integer threshold the call always
    returns. *)
Theorem simple_filter_silent_gene (obj : dataset) (minreads : Z) (g : string) :
  In g (index (exp_mat obj)) ->
  expressed_nowhere (exp_mat obj) g = true ->
  (exists obj',
     simple_filter obj minreads (IntThr 0) = Ok obj' /\
     In g (index (exp_mat obj'))) /\
  forall n, 0 < n ->
            exists obj',
              simple_filter obj minreads (IntThr n) = Ok obj' /\
              ~ In g (index (exp_mat obj')).
Proof.
  intros Hin Hs. split.
  - eexists. split; [apply simple_filter_gene_filter_off; reflexivity|].
    cbn [exp_mat set_exp_mat].
    destruct (keep_cells_rows (exp_mat obj) minreads) as [-> _]. exact Hin.
  - intros n Hn. apply simple_filter_positive_drops_silent; assumption.
Qed.

Lemma simple_filter_silent_gene_witness :
  (exists obj',
     simple_filter (empty_dataset counts_silent) 1000 (IntThr 0) = Ok obj' /\
     In "silent" (index (exp_mat obj'))) /\
  forall n, 0 < n ->
            exists obj',
              simple_filter (empty_dataset counts_silent) 1000 (IntThr n)
                = Ok obj' /\
              ~ In "silent" (index (exp_mat obj')).
Proof.
  apply (simple_filter_silent_gene (empty_dataset counts_silent) 1000 "silent").
  - simpl. auto.
  - reflexivity.
Defined.

(** ** [auto_clean] *)

(** The two tests [type(x) == None] are never true. *)
Lemma type_never_equals_None (x : option ExpMat) :
  py_eq (py_type_of x) PyNone = false.
Proof. destruct x; reflexivity. Qed.

Lemma global_name_np : global_name "np" = Ok tt.
Proof. reflexivity. Qed.

Lemma global_name_pd : global_name "pd" = Raise (NameError "pd").
Proof. reflexivity. Qed.

Lemma global_name_MinCovDet :
  global_name "MinCovDet" = Raise (NameError "MinCovDet").
Proof. reflexivity. Qed.

(** C3.  On every dataset whose mitochondrial and spike-in sub-matrices are
    present, whatever the gene list, the threshold, the seed and the
    numerical routines, [auto_clean] raises [NameError] for [pd] at the
    line that builds the quality-control matrix: the module binds neither
    [pd] nor [MinCovDet].  No distance is computed and no cell is flagged
    or stored. *)
Theorem auto_clean_stops_at_unbound_name
  (mincovdet_mahalanobis : Z -> list (list float64) -> result (list float64))
  (np_mean np_std : list float64 -> float64) (np_log : float64 -> float64)
  (m mito ercc : ExpMat) (lq : option (list string))
  (nd : list (string * NormItem)) (a : list (string * option string))
  (rRNA_genes : list string) (sd_thres : float64) (seed : Z) :
  auto_clean mincovdet_mahalanobis np_mean np_std np_log
             (mkDataset m (Some mito) (Some ercc) lq nd a)
             rRNA_genes sd_thres seed
  = Raise (NameError "pd").
Proof.
  unfold auto_clean. cbn [exp_mat exp_mito exp_ERCC].
  rewrite !type_never_equals_None, global_name_np.
  cbn [bind attr_sum_axis0].
  rewrite global_name_pd. reflexivity.
Qed.

(** C6.  When the mitochondrial sub-matrix is missing, and when it is
    present but the spike-in sub-matrix is missing, [auto_clean] does not
    raise either of its two configuration errors: it goes on to the
    quality metrics and raises [AttributeError] at the first [.sum] taken
    of [None]. *)
Theorem auto_clean_missing_submatrix
  (mincovdet_mahalanobis : Z -> list (list float64) -> result (list float64))
  (np_mean np_std : list float64 -> float64) (np_log : float64 -> float64)
  (m mito : ExpMat) (ercc : option ExpMat) (lq : option (list string))
  (nd : list (string * NormItem)) (a : list (string * option string))
  (rRNA_genes : list string) (sd_thres : float64) (seed : Z) :
  auto_clean mincovdet_mahalanobis np_mean np_std np_log
             (mkDataset m None ercc lq nd a) rRNA_genes sd_thres seed
  = Raise (AttributeError "'NoneType' object has no attribute 'sum'")
  /\
  auto_clean mincovdet_mahalanobis np_mean np_std np_log
             (mkDataset m (Some mito) None lq nd a) rRNA_genes sd_thres seed
  = Raise (AttributeError "'NoneType' object has no attribute 'sum'").
Proof.
  split.
  - unfold auto_clean. cbn [exp_mito exp_ERCC exp_mat].
    rewrite !type_never_equals_None. reflexivity.
  - reflexivity.
Qed.

(** ** The SVD engine *)

Lemma mat_nrows_first_cols (k : nat) (m : matrix) :
  mat_nrows (first_cols k m) = mat_nrows m.
Proof. apply length_map. Qed.

Lemma mat_nrows_abs (m : matrix) : mat_nrows (mat_abs m) = mat_nrows m.
Proof. apply length_map. Qed.

Lemma mat_ncols_abs (m : matrix) : mat_ncols (mat_abs m) = mat_ncols m.
Proof. destruct m; simpl; [reflexivity | apply length_map]. Qed.

Lemma mat_ncols_first_cols (k : nat) (m : matrix) :
  mat_ncols (first_cols k m) = Nat.min k (mat_ncols m).
Proof.
  destruct m as [|r m]; unfold mat_ncols; simpl.
  - rewrite Nat.min_0_r. reflexivity.
  - apply length_firstn.
Qed.

Lemma mat_nrows_transpose (m : matrix) :
  mat_nrows (mat_transpose m) = mat_ncols m.
Proof. unfold mat_nrows, mat_transpose. rewrite length_map. apply length_seq. Qed.

Lemma mat_ncols_transpose (m : matrix) :
  (0 < mat_ncols m)%nat -> mat_ncols (mat_transpose m) = mat_nrows m.
Proof.
  unfold mat_transpose. intros H.
  destruct (mat_ncols m) as [|n]; [lia|].
  cbn. unfold mat_column. apply length_map.
Qed.

Lemma firstn_seq_min (k start n : nat) :
  firstn k (seq start n) = seq start (Nat.min k n).
Proof.
  revert start n. induction k as [|k IH]; intros start [|n]; simpl;
    try reflexivity.
  rewrite IH. reflexivity.
Qed.

Lemma firstn_range_index (k n : nat) :
  firstn k (range_index n) = range_index (Nat.min k n).
Proof. unfold range_index. rewrite firstn_map, firstn_seq_min. reflexivity. Qed.

Lemma mat_column_first_cols (k j : nat) (m : matrix) :
  (j < k)%nat -> mat_column j (first_cols k m) = mat_column j m.
Proof.
  intros Hj. unfold mat_column, first_cols. rewrite map_map.
  apply map_ext. intros row. rewrite nth_firstn.
  apply Nat.ltb_lt in Hj. rewrite Hj. reflexivity.
Qed.

(** Cutting the product to its first [k] columns is multiplying by the
    first [k] columns of the right factor. *)
Lemma first_cols_matmul (k : nat) (a b : matrix) :
  first_cols k (matmul a b) = matmul a (first_cols k b).
Proof.
  unfold matmul at 1 2. unfold first_cols at 1. rewrite map_map.
  apply map_ext. intros row.
  rewrite firstn_map, firstn_seq_min, mat_ncols_first_cols.
  apply map_ext_in. intros j Hj. apply in_seq in Hj.
  rewrite mat_column_first_cols by lia. reflexivity.
Qed.

(** The result of [svd] once the decomposition is known and [v] has one row
    per gene. *)
Lemma svd_project_value (inp : DataFrame string string float64)
  (u : matrix) (d : list float64) (vh : matrix) (k : nat) :
  mat_ncols vh = shape1 inp ->
  let v := mat_transpose vh in
  svd_project inp (u, d, vh) k =
  Ok (mkDF (map Name (index inp)) (range_index (Nat.min k (mat_ncols v)))
           (matmul (values inp) (first_cols k v)),
      mkDF (map Name (columns inp)) (range_index (Nat.min k (mat_ncols v)))
           (mat_abs (first_cols k v))).
Proof.
  intros Hshape v. unfold svd_project, frame_dot, new_frame.
  cbn [fst snd]. fold v.
  assert (Hv : mat_nrows v = shape1 inp)
    by (unfold v; rewrite mat_nrows_transpose; exact Hshape).
  rewrite Hv, Nat.eqb_refl. cbn [bind].
  rewrite mat_nrows_abs, mat_nrows_first_cols, Hv.
  unfold shape1 at 1. rewrite Nat.eqb_refl. cbn [bind].
  unfold iloc_first_cols. cbn [index columns values].
  rewrite firstn_range_index, mat_ncols_abs, mat_ncols_first_cols.
  fold (first_cols k (matmul (values inp) v)).
  rewrite first_cols_matmul. reflexivity.
Qed.

(** C2.  When the decomposition of the cell-by-gene matrix returns
    [(u, d, vh)] with one column of [vh] per gene, [svd] returns as
    components the cell-by-gene matrix multiplied by the first [k] columns
    of [v = vh.transpose()], with the cells as row labels, and as
    contributions the absolute values of those [k] columns, with the genes
    as row labels.  The singular values [d] take no part: any other [d']
    gives the same result. *)
Theorem svd_returns_unscaled_projection
  (linalg_svd : matrix -> result (matrix * list float64 * matrix))
  (data_norm : NormMat) (k : nat) (u : matrix) (d : list float64)
  (vh : matrix) :
  linalg_svd (values (transpose data_norm)) = Ok (u, d, vh) ->
  mat_ncols vh = shape0 data_norm ->
  let inp := transpose data_norm in
  let v := mat_transpose vh in
  svd linalg_svd data_norm k =
    Ok (mkDF (map Name (columns data_norm))
             (range_index (Nat.min k (mat_ncols v)))
             (matmul (values inp) (first_cols k v)),
        mkDF (map Name (index data_norm))
             (range_index (Nat.min k (mat_ncols v)))
             (mat_abs (first_cols k v)))
  /\ forall d', svd_project inp (u, d', vh) k = svd_project inp (u, d, vh) k.
Proof.
  intros Hsvd Hshape inp v. subst inp v.
  assert (Hs : mat_ncols vh = shape1 (transpose data_norm)) by exact Hshape.
  split.
  - unfold svd. rewrite Hsvd. cbn [bind].
    rewrite (svd_project_value (transpose data_norm) u d vh k Hs).
    reflexivity.
  - intros d'. rewrite !svd_project_value by exact Hs. reflexivity.
Qed.

Lemma svd_returns_unscaled_projection_witness :
  svd svd_of_diagonal norm_3x2 2 =
    Ok (mkDF [Name "c1"; Name "c2"] [Pos 0%nat; Pos 1%nat]
             [[2%float; 0%float]; [0%float; 1%float]],
        mkDF [Name "g1"; Name "g2"; Name "g3"] [Pos 0%nat; Pos 1%nat]
             [[1%float; 0%float]; [0%float; 1%float]; [0%float; 0%float]])
  /\ forall d',
       svd_project (transpose norm_3x2)
                   (identity 2, d', identity 3) 2 =
       svd_project (transpose norm_3x2)
                   (identity 2, [2%float; 1%float], identity 3) 2.
Proof.
  apply (@svd_returns_unscaled_projection svd_of_diagonal norm_3x2 2
           (identity 2) [2%float; 1%float] (identity 3)).
  - reflexivity.
  - reflexivity.
Defined.

(** [svd] fails exactly when the decomposition or the shapes fail, which
    the number of components does not touch. *)
Lemma svd_is_ok_any_k
  (linalg_svd : matrix -> result (matrix * list float64 * matrix))
  (data_norm : NormMat) (k k' : nat) :
  is_ok (svd linalg_svd data_norm k') = is_ok (svd linalg_svd data_norm k).
Proof.
  unfold svd. destruct (linalg_svd (values (transpose data_norm)))
    as [[[u d] vh]|e]; [|reflexivity].
  cbn [bind]. unfold svd_project, frame_dot, new_frame. cbn [fst snd].
  destruct (Nat.eqb (shape1 (transpose data_norm))
                    (mat_nrows (mat_transpose vh))); [|reflexivity].
  cbn [bind]. rewrite !mat_nrows_abs, !mat_nrows_first_cols.
  destruct (Nat.eqb (List.length (columns (transpose data_norm)))
                    (mat_nrows (mat_transpose vh))); reflexivity.
Qed.

Lemma svd_columns
  (linalg_svd : matrix -> result (matrix * list float64 * matrix))
  (data_norm : NormMat) (k : nat) :
  match svd linalg_svd data_norm k,
        linalg_svd (values (transpose data_norm)) with
  | Ok (comp1, contr1), Ok (_, _, vh) =>
      columns comp1 = range_index (Nat.min k (mat_ncols (mat_transpose vh))) /\
      columns contr1 = range_index (Nat.min k (mat_ncols (mat_transpose vh)))
  | Ok _, Raise _ => False
  | Raise _, _ => True
  end.
Proof.
  unfold svd. destruct (linalg_svd (values (transpose data_norm)))
    as [[[u d] vh]|e]; [|exact I].
  cbn [bind]. unfold svd_project, frame_dot, new_frame. cbn [fst snd].
  destruct (Nat.eqb (shape1 (transpose data_norm))
                    (mat_nrows (mat_transpose vh))); [|exact I].
  cbn [bind].
  destruct (Nat.eqb (List.length (columns (transpose data_norm)))
                    (mat_nrows (mat_abs (first_cols k (mat_transpose vh)))));
    [|exact I].
  cbn [bind]. unfold iloc_first_cols. cbn [columns].
  rewrite firstn_range_index, mat_ncols_abs, mat_ncols_first_cols.
  split; reflexivity.
Qed.

(** C5, as it fails: three components asked of two genes over two cells;
    [svd] raises nothing and returns two columns. *)
Lemma svd_accepts_excess_components :
  shape0 norm_2x2 = 2%nat /\ shape1 norm_2x2 = 2%nat /\
  is_ok (svd svd_of_diagonal norm_2x2 3) = true /\
  svd svd_of_diagonal norm_2x2 3 =
    Ok (mkDF [Name "c1"; Name "c2"] [Pos 0%nat; Pos 1%nat]
             [[2%float; 0%float]; [0%float; 1%float]],
        mkDF [Name "g1"; Name "g2"] [Pos 0%nat; Pos 1%nat]
             [[1%float; 0%float]; [0%float; 1%float]]).
Proof. vm_compute. repeat split. Qed.

(** Three components asked of three genes over two cells: more than the
    smaller dimension, and [svd] returns all three. *)
Example svd_wide_request :
  option_map (fun cc => (shape1 (fst cc), shape1 (snd cc)))
             (match svd svd_of_diagonal norm_3x2 3 with
              | Ok cc => Some cc
              | Raise _ => None
              end) = Some (3%nat, 3%nat).
Proof. vm_compute. reflexivity. Qed.

(** C5, amended.  Under the strategy [svd] the number of components asked
    for never causes an error: whether [svd] fails does not depend on it,
    and on success components and contributions have [min k n] columns,
    [n] being the number of right singular vectors returned by the
    decomposition, so that a larger request is cut short without notice.
    Under [irlb] the request goes unchanged to the Lanczos routine, whose
    failure is the failure of [irlb]. *)
Theorem svd_engine_component_count
  (linalg_svd : matrix -> result (matrix * list float64 * matrix))
  (lanczos : NormMat -> nat -> nat -> option Z -> result LanczosResult)
  (data_norm : NormMat) (k : nat) (seed : option Z) :
  (forall k', is_ok (svd linalg_svd data_norm k')
              = is_ok (svd linalg_svd data_norm k)) /\
  match svd linalg_svd data_norm k,
        linalg_svd (values (transpose data_norm)) with
  | Ok (comp1, contr1), Ok (_, _, vh) =>
      columns comp1 = range_index (Nat.min k (mat_ncols (mat_transpose vh))) /\
      columns contr1 = range_index (Nat.min k (mat_ncols (mat_transpose vh)))
  | Ok _, Raise _ => False
  | Raise _, _ => True
  end /\
  match lanczos data_norm k 1000%nat seed with
  | Raise e => irlb lanczos data_norm k seed = Raise e
  | Ok _ => True
  end.
Proof.
  split; [intros k'; apply svd_is_ok_any_k|].
  split; [apply svd_columns|].
  unfold irlb. destruct (lanczos data_norm k 1000%nat seed); [exact I|].
  reflexivity.
Qed.

(** ** The reduction orchestrator *)

Section ScaleFlag.
Variable sklearn_scale : matrix -> result matrix.
Variable linalg_svd : matrix -> result (matrix * list float64 * matrix).
Variable lanczos : NormMat -> nat -> nat -> option Z -> result LanczosResult.

(** When the run with [scale=True] reaches the strategy, the frame it
    passes is the one of the run with [scale=False]: the rows of the
    normalised matrix, restricted to the highly variable genes unless
    [allgenes]. *)
Lemma pca_input_scale_dropped (allgenes : bool) (item : NormItem)
  (data1 : NormMat) :
  pca_input sklearn_scale allgenes true item = Ok data1 ->
  pca_input sklearn_scale allgenes false item = Ok data1 /\
  data1 = (if negb allgenes
           then rows_where (isin (hvg_genes item) (index (data item)))
                           (data item)
           else data item).
Proof.
  unfold pca_input. intros H.
  destruct (sklearn_scale _) as [d|e]; cbn [bind] in H; [|discriminate].
  destruct (new_frame _ _) as [f|e]; cbn [bind] in H; [|discriminate].
  injection H as <-. split; reflexivity.
Qed.

Lemma pca_target_scale_dropped (method : string) (ncomp : nat)
  (allgenes : bool) (seed : option Z) (item : NormItem) (r : PcaResult) :
  pca_target sklearn_scale linalg_svd lanczos method ncomp allgenes true
             seed item = Ok r ->
  pca_target sklearn_scale linalg_svd lanczos method ncomp allgenes false
             seed item = Ok r.
Proof.
  unfold pca_target. intros H.
  destruct (pca_input sklearn_scale allgenes true item) as [d|e] eqn:Hin;
    cbn [bind] in H; [|discriminate].
  apply pca_input_scale_dropped in Hin as [-> _]. exact H.
Qed.

Lemma pca_loop_scale_dropped (method : string) (ncomp : nat)
  (allgenes : bool) (seed : option Z) (targets : list (string * NormItem))
  (obj : dataset) :
  snd (pca_loop sklearn_scale linalg_svd lanczos method ncomp allgenes true
                seed targets obj) = None ->
  pca_loop sklearn_scale linalg_svd lanczos method ncomp allgenes true
           seed targets obj =
  pca_loop sklearn_scale linalg_svd lanczos method ncomp allgenes false
           seed targets obj.
Proof.
  revert obj. induction targets as [|[k item] rest IH]; intros obj H.
  - reflexivity.
  - cbn [pca_loop] in *.
    destruct (pca_target sklearn_scale linalg_svd lanczos method ncomp
                         allgenes true seed item) as [r|e] eqn:Ht.
    + rewrite (pca_target_scale_dropped _ _ _ _ _ Ht). apply IH. exact H.
    + discriminate.
Qed.

(** A call of [pca] with [scale=True] that returns leaves the dataset
    exactly as the same call with [scale=False]. *)
Lemma pca_scale_without_effect (obj : dataset) (method : string)
  (name : option string) (ncomp : nat) (allgenes : bool) (seed : option Z) :
  snd (pca sklearn_scale linalg_svd lanczos obj method name ncomp allgenes
           true seed) = None ->
  pca sklearn_scale linalg_svd lanczos obj method name ncomp allgenes
      true seed =
  pca sklearn_scale linalg_svd lanczos obj method name ncomp allgenes
      false seed.
Proof.
  unfold pca. destruct (norm_data obj) as [|kv rest]; [discriminate|].
  destruct (match name with None => true | Some n => String.eqb n "" end).
  - apply pca_loop_scale_dropped.
  - destruct (dict_get _ _) as [item|e]; [|discriminate].
    apply pca_loop_scale_dropped.
Qed.
End ScaleFlag.

(** C1.  A dataset with one normalisation of two genes over two cells,
    [pca] with [scale=True] and the strategy [svd].  Standardising the
    genes would give the matrix [[1, -1], [-1, 1]]; the frame passed to the
    strategy is the normalised matrix [[2, 0], [0, 1]] itself, and the
    stored components are its projection: the call leaves the dataset as
    the call with [scale=False] does. *)
Theorem pca_scale_passes_unscaled_matrix
  (lanczos : NormMat -> nat -> nat -> option Z -> result LanczosResult) :
  standardize (values (transpose norm_2x2)) =
    Ok [[1%float; (-1)%float]; [(-1)%float; 1%float]] /\
  pca_input standardize false true item_2x2 = Ok norm_2x2 /\
  pca_target standardize svd_of_diagonal lanczos "svd" 2 false true None
             item_2x2 =
    Ok (mkPca (mkDF [Name "c1"; Name "c2"] [Pos 0%nat; Pos 1%nat]
                    [[2%float; 0%float]; [0%float; 1%float]])
              (mkDF [Name "g1"; Name "g2"] [Pos 0%nat; Pos 1%nat]
                    [[1%float; 0%float]; [0%float; 1%float]])
              "svd") /\
  pca standardize svd_of_diagonal lanczos normalised_dataset "svd" None 2
      false true None =
  pca standardize svd_of_diagonal lanczos normalised_dataset "svd" None 2
      false false None.
Proof. vm_compute. repeat split. Qed.

(* ===================================================================== *)
(** * Further properties *)

(** ** Label-based selection under unique labels *)

Lemma unique_labels_NoDup (l : list string) :
  unique_labels l = true -> NoDup l.
Proof.
  induction l as [|x t IH]; simpl; intros H; constructor.
  - apply andb_prop in H as [H _]. intros Hin.
    apply existsb_eqb_In in Hin. rewrite Hin in H. discriminate.
  - apply IH. apply andb_prop in H as [_ H]. exact H.
Qed.

Section MaskFacts.
Context {A : Type}.

Lemma mask_select_nil_r (mask : list bool) : mask_select mask (@nil A) = [].
Proof. unfold mask_select. destruct mask; reflexivity. Qed.

Lemma mask_select_cons (b : bool) (mask : list bool) (x : A) (l : list A) :
  mask_select (b :: mask) (x :: l) =
  if b then x :: mask_select mask l else mask_select mask l.
Proof. unfold mask_select. destruct b; reflexivity. Qed.

Lemma mask_select_incl (mask : list bool) (l : list A) (x : A) :
  In x (mask_select mask l) -> In x l.
Proof.
  intros H. apply mask_select_In in H as [j [_ H]].
  eapply nth_error_In. exact H.
Qed.

Lemma select_nil_r (pos : list nat) : select pos (@nil A) = [].
Proof.
  unfold select. induction pos as [|j pos IH]; simpl; [reflexivity|].
  rewrite IH. destruct j; reflexivity.
Qed.

Lemma select_cons (j : nat) (pos : list nat) (l : list A) :
  select (j :: pos) l =
  match nth_error l j with Some x => [x] | None => [] end ++ select pos l.
Proof. reflexivity. Qed.

Lemma select_map_S (pos : list nat) (x : A) (l : list A) :
  select (map S pos) (x :: l) = select pos l.
Proof.
  unfold select. induction pos as [|j pos IH]; simpl; [reflexivity|].
  rewrite IH. reflexivity.
Qed.

Lemma positions_from_S {B} (p : B -> bool) (l : list B) (n : nat) :
  positions_from (S n) p l = map S (positions_from n p l).
Proof.
  revert n. induction l as [|y t IH]; intros n; simpl; [reflexivity|].
  destruct (p y); simpl; rewrite IH; reflexivity.
Qed.

Lemma positions_from_none {B} (p : B -> bool) (l : list B) (n : nat) :
  (forall y, In y l -> p y = false) -> positions_from n p l = [].
Proof.
  revert n. induction l as [|y t IH]; intros n H; simpl; [reflexivity|].
  rewrite (H y (or_introl eq_refl)). apply IH.
  intros z Hz. apply H. right. exact Hz.
Qed.

(** The elements at the true positions of a mask on [l], read from any list
    [vals], are the mask selection of [vals]. *)
Lemma select_mask_positions {B} (mask : list bool) (l : list B)
  (vals : list A) :
  List.length mask = List.length l ->
  select (positions fst (combine mask l)) vals = mask_select mask vals.
Proof.
  unfold positions. revert l vals.
  induction mask as [|b mask IH]; intros [|y l] vals Hlen;
    try discriminate; [destruct vals; reflexivity|].
  simpl in Hlen. injection Hlen as Hlen.
  destruct vals as [|v vals].
  - rewrite select_nil_r, mask_select_nil_r. reflexivity.
  - rewrite mask_select_cons. cbn [combine positions_from fst].
    rewrite positions_from_S.
    destruct b.
    + rewrite select_cons. cbn [nth_error app].
      rewrite select_map_S, IH by exact Hlen. reflexivity.
    + rewrite select_map_S, IH by exact Hlen. reflexivity.
Qed.
End MaskFacts.

Lemma flat_map_agree {A B} (f g : A -> list B) (l : list A) :
  (forall x, In x l -> f x = g x) -> flat_map f l = flat_map g l.
Proof.
  induction l as [|x t IH]; intros H; simpl; [reflexivity|].
  rewrite (H x (or_introl eq_refl)), IH; [reflexivity|].
  intros y Hy. apply H. right. exact Hy.
Qed.

(** With unique labels, looking up the labels picked by a mask finds the
    positions where the mask is true, in order. *)
Lemma label_positions_mask (l : list string) :
  NoDup l -> forall (mask : list bool) (n : nat),
  flat_map (fun x => positions_from n (String.eqb x) l) (mask_select mask l)
  = positions_from n fst (combine mask l).
Proof.
  induction 1 as [|a t Hnotin Hnd IH]; intros mask n.
  - rewrite mask_select_nil_r. destruct mask; reflexivity.
  - destruct mask as [|b mask]; [reflexivity|].
    assert (Hrest :
      flat_map (fun x => positions_from n (String.eqb x) (a :: t))
               (mask_select mask t)
      = positions_from (S n) fst (combine mask t)).
    { rewrite <- IH. apply flat_map_agree. intros x Hx.
      apply mask_select_incl in Hx. cbn [positions_from].
      destruct (String.eqb_spec x a) as [->|_]; [contradiction|].
      reflexivity. }
    rewrite mask_select_cons. destruct b; cbn [combine flat_map].
    + rewrite Hrest. cbn [positions_from fst].
      rewrite String.eqb_refl.
      rewrite positions_from_none; [reflexivity|].
      intros y Hy. apply String.eqb_neq. intros ->. contradiction.
    + rewrite Hrest. reflexivity.
Qed.

Lemma select_labels_of_mask {A} (l : list string) (mask : list bool)
  (vals : list A) :
  NoDup l -> List.length mask = List.length l ->
  select (label_positions String.eqb (mask_select mask l) l) vals
  = mask_select mask vals.
Proof.
  intros Hnd Hlen. unfold label_positions, positions.
  rewrite (label_positions_mask Hnd).
  apply (select_mask_positions mask l vals Hlen).
Qed.

(** With unique row labels, [df.loc[index[mask]]] is [df[mask]]. *)
Lemma loc_rows_mask {C V} (df : DataFrame string C V) (mask : list bool) :
  NoDup (index df) -> List.length mask = List.length (index df) ->
  loc_rows (mask_select mask (index df)) df = rows_where mask df.
Proof.
  intros Hnd Hlen. unfold loc_rows, take_rows, rows_where.
  rewrite !select_labels_of_mask by assumption. reflexivity.
Qed.

(** With unique column labels, [df[columns[mask]]] keeps, in every row, the
    values at the true positions of the mask. *)
Lemma getitem_cols_mask {I V} (df : DataFrame I string V) (mask : list bool) :
  NoDup (columns df) -> List.length mask = List.length (columns df) ->
  getitem_cols (mask_select mask (columns df)) df =
  mkDF (index df) (mask_select mask (columns df))
       (map (mask_select mask) (values df)).
Proof.
  intros Hnd Hlen. unfold getitem_cols, take_cols. f_equal.
  - apply select_labels_of_mask; assumption.
  - apply map_ext. intros row. apply select_labels_of_mask; assumption.
Qed.

Lemma isin_of_mask (l : list string) :
  NoDup l -> forall mask : list bool,
  List.length mask = List.length l ->
  isin (mask_select mask l) l = mask.
Proof.
  unfold isin. induction 1 as [|a t Hnotin Hnd IH]; intros [|b mask] Hlen;
    try discriminate; [reflexivity|].
  simpl in Hlen. injection Hlen as Hlen.
  rewrite mask_select_cons. cbn [map]. f_equal.
  - destruct b; cbn [existsb].
    + rewrite String.eqb_refl. reflexivity.
    + destruct (existsb (String.eqb a) (mask_select mask t)) eqn:E;
        [|reflexivity].
      apply existsb_eqb_In, mask_select_incl in E. contradiction.
  - transitivity (map (fun l => existsb (String.eqb l) (mask_select mask t)) t);
      [|apply IH; exact Hlen].
    apply map_ext_in. intros x Hx.
    destruct b; cbn [existsb]; [|reflexivity].
    destruct (String.eqb_spec x a) as [->|_]; [contradiction|reflexivity].
Qed.

Lemma well_formed_rows {V} (m : DataFrame string string V) :
  well_formed m = true ->
  List.length (values m) = List.length (index m) /\
  forall row, In row (values m) -> List.length row = List.length (columns m).
Proof.
  unfold well_formed. intros H. apply andb_prop in H as [H1 H2].
  split; [apply Nat.eqb_eq; exact H1|].
  intros row Hrow. rewrite forallb_forall in H2.
  apply Nat.eqb_eq. apply H2. exact Hrow.
Qed.

Lemma sum_axis0_length (m : ExpMat) :
  List.length (sum_axis0 m) = List.length (columns m).
Proof.
  unfold sum_axis0, column_list, shape1.
  rewrite !length_map, length_seq. reflexivity.
Qed.

(** ** [simple_filter] with unique labels *)

Lemma keep_cells_unique (m : ExpMat) (minreads : Z) :
  NoDup (columns m) ->
  let r := map (fun c => minreads <? c) (sum_axis0 m) in
  keep_cells m minreads =
  mkDF (index m) (mask_select r (columns m)) (map (mask_select r) (values m)).
Proof.
  intros Hu r. unfold keep_cells. cbv zeta. fold r.
  apply getitem_cols_mask; [exact Hu|].
  unfold r. rewrite length_map. apply sum_axis0_length.
Qed.

(** X1.  When the cell labels are unique and the gene threshold is not
    above zero, [simple_filter] returns the dataset with, in the header and
    in every row of [exp_mat], exactly the positions whose column sum,
    taken in [int64], exceeds [minreads], in their original order; rows
    and row labels are untouched. *)
Theorem simple_filter_unique_cells (obj : dataset) (minreads : Z)
  (t : threshold) :
  unique_labels (columns (exp_mat obj)) = true ->
  gt_zero t = false ->
  let m := exp_mat obj in
  let r := map (fun c => minreads <? c) (sum_axis0 m) in
  simple_filter obj minreads t =
  Ok (set_exp_mat
        (mkDF (index m) (mask_select r (columns m))
              (map (mask_select r) (values m)))
        obj).
Proof.
  intros Hu Ht m r. rewrite (simple_filter_gene_filter_off obj minreads t Ht).
  unfold r, m.
  rewrite (@keep_cells_unique (exp_mat obj) minreads
             (unique_labels_NoDup _ Hu)).
  reflexivity.
Qed.

Lemma simple_filter_unique_cells_witness :
  simple_filter (empty_dataset counts_huge) 0 (FloatThr 0%float) =
  Ok (empty_dataset (mkDF ["g1"; "g2"] ["c2"] [[1]; [1]])).
Proof.
  apply (simple_filter_unique_cells (empty_dataset counts_huge) 0
                                    (FloatThr 0%float)); reflexivity.
Defined.

(** X2.  When gene and cell labels are unique and the matrix is well
    formed, [simple_filter] with an integer threshold [n >= 1] returns, and
    is a filter in two steps: the cells whose column sum, taken in
    [int64], exceeds [minreads] are kept, and then exactly the rows with
    more than [n] positive counts among the kept cells, in their original
    order and with their values. *)
Theorem simple_filter_integer_threshold (obj : dataset) (minreads n : Z) :
  unique_labels (columns (exp_mat obj)) = true ->
  unique_labels (index (exp_mat obj)) = true ->
  well_formed (exp_mat obj) = true ->
  0 < n ->
  let m := exp_mat obj in
  let r := map (fun c => minreads <? c) (sum_axis0 m) in
  let rows1 := map (mask_select r) (values m) in
  let keep := map (fun row => n <? expressed_count row) rows1 in
  simple_filter obj minreads (IntThr n) =
  Ok (set_exp_mat
        (mkDF (mask_select keep (index m)) (mask_select r (columns m))
              (mask_select keep rows1))
        obj).
Proof.
  intros Hc Hi Hwf Hn m r rows1 keep.
  apply well_formed_rows in Hwf as [Hlen _].
  rewrite (simple_filter_integer obj minreads Hn). cbv zeta.
  rewrite (@keep_cells_unique (exp_mat obj) minreads
             (unique_labels_NoDup _ Hc)).
  cbv zeta. fold m. fold r. cbn [index values]. fold rows1.
  rewrite map_map. fold keep.
  rewrite isin_of_mask;
    [reflexivity | apply unique_labels_NoDup; exact Hi|].
  unfold keep, rows1. rewrite !length_map. exact Hlen.
Qed.

Lemma simple_filter_integer_threshold_witness :
  simple_filter (empty_dataset counts_huge) 0 (IntThr 1) =
  Ok (empty_dataset (mkDF [] ["c2"] [])).
Proof.
  apply (@simple_filter_integer_threshold (empty_dataset counts_huge) 0 1);
    reflexivity.
Defined.

(** ** [remove_empty] on matrices that are not square *)

Lemma count_true_le_length (mask : list bool) :
  count_true mask <= Z.of_nat (List.length mask).
Proof.
  unfold count_true. apply inj_le. apply filter_length_le.
Qed.

Lemma column_length_le {I C V} (j : nat) (df : DataFrame I C V) :
  (List.length (column j df) <= List.length (values df))%nat.
Proof.
  unfold column. induction (values df) as [|row rows IH]; simpl; [lia|].
  rewrite length_app. destruct (nth_error row j); simpl; lia.
Qed.

Lemma select_incl {A} (pos : list nat) (l : list A) (x : A) :
  In x (select pos l) -> In x l.
Proof.
  intros H. apply select_In in H as [j [_ H]].
  eapply nth_error_In. exact H.
Qed.

Lemma all_false_count (mask : list bool) :
  (forall b, In b mask -> b = false) -> (0 <? count_true mask) = false.
Proof.
  intros H. apply count_true_zero in H. rewrite H. reflexivity.
Qed.

(** X3.  On a well-formed matrix with more cells than genes,
    [remove_empty] removes no cell, whatever the counts: the column labels
    are those of the input and every row of the result is a row of the
    input, so that a cell without any read stays. *)
Theorem remove_empty_wide_keeps_cells (obj : dataset) :
  well_formed (exp_mat obj) = true ->
  (shape0 (exp_mat obj) < shape1 (exp_mat obj))%nat ->
  columns (exp_mat (remove_empty obj)) = columns (exp_mat obj) /\
  forall row, In row (values (exp_mat (remove_empty obj))) ->
              In row (values (exp_mat obj)).
Proof.
  intros Hwf Hwide. apply well_formed_rows in Hwf as [Hlen _].
  unfold remove_empty. cbn [exp_mat set_exp_mat].
  set (m := exp_mat obj) in *.
  set (dz := mkDF (index m) (columns m)
                  (map (map (fun x => x =? 0)) (values m))).
  rewrite (all_false_count
             (map (fun c => c =? Z.of_nat (shape1 m))
                  (map count_true (column_list dz)))).
  - destruct (0 <? count_true _); [|split; [reflexivity | auto]].
    unfold loc_rows, take_rows. cbn [columns values].
    split; [reflexivity|]. intros row. apply select_incl.
  - intros b Hb. apply in_map_iff in Hb as [c [<- Hc]].
    apply in_map_iff in Hc as [col [<- Hcol]].
    unfold column_list in Hcol. apply in_map_iff in Hcol as [j [<- _]].
    apply Z.eqb_neq.
    pose proof (count_true_le_length (column j dz)) as H1.
    pose proof (column_length_le j dz) as H2.
    unfold dz in H2 at 2. cbn [values] in H2. rewrite length_map in H2.
    unfold shape0, shape1 in *. clearbody dz m. lia.
Qed.

Lemma remove_empty_wide_keeps_cells_witness :
  columns (exp_mat (remove_empty (empty_dataset counts_4x5))) =
    ["c1"; "c2"; "c3"; "c4"; "c5"] /\
  forall row,
    In row (values (exp_mat (remove_empty (empty_dataset counts_4x5)))) ->
    In row (values counts_4x5).
Proof.
  apply (remove_empty_wide_keeps_cells (empty_dataset counts_4x5)).
  - reflexivity.
  - unfold shape0, shape1. simpl. lia.
Defined.

(** X4.  On a well-formed matrix with more genes than cells,
    [remove_empty] removes no gene, whatever the counts: row labels and
    number of rows are those of the input, so that a gene without any read
    stays. *)
Theorem remove_empty_tall_keeps_genes (obj : dataset) :
  well_formed (exp_mat obj) = true ->
  (shape1 (exp_mat obj) < shape0 (exp_mat obj))%nat ->
  index (exp_mat (remove_empty obj)) = index (exp_mat obj) /\
  List.length (values (exp_mat (remove_empty obj))) =
  List.length (values (exp_mat obj)).
Proof.
  intros Hwf Htall. apply well_formed_rows in Hwf as [Hlen Hrows].
  unfold remove_empty. cbn [exp_mat set_exp_mat].
  set (m := exp_mat obj) in *.
  cbn [values].
  rewrite (all_false_count
             (map (fun g => g =? Z.of_nat (shape0 m))
                  (map count_true (map (map (fun x => x =? 0)) (values m))))).
  - destruct (0 <? count_true _).
    + unfold getitem_cols, take_cols. cbn [index values].
      split; [reflexivity | apply length_map].
    + split; reflexivity.
  - intros b Hb. apply in_map_iff in Hb as [c [<- Hc]].
    apply in_map_iff in Hc as [zs [<- Hzs]].
    apply in_map_iff in Hzs as [row [<- Hrow]].
    apply Z.eqb_neq.
    pose proof (count_true_le_length (map (fun x => x =? 0) row)) as H1.
    rewrite length_map, (Hrows row Hrow) in H1.
    unfold shape0, shape1 in *. clearbody m. lia.
Qed.

Lemma remove_empty_tall_keeps_genes_witness :
  index (exp_mat (remove_empty (empty_dataset counts_tall))) =
    ["g1"; "g2"; "g3"] /\
  List.length (values (exp_mat (remove_empty (empty_dataset counts_tall)))) =
  3%nat.
Proof.
  apply (remove_empty_tall_keeps_genes (empty_dataset counts_tall)).
  - reflexivity.
  - unfold shape0, shape1. simpl. lia.
Defined.

(** ** The splits: repetition, order and conservation of rows *)

(** X5.  [detect_mito] applied a second time with the same pattern changes
    nothing: after the first call no row label of [exp_mat] matches, and
    [exp_mito] keeps the rows extracted by the first call. *)
Theorem detect_mito_idempotent
  (re_search : string -> bool -> string -> bool) (obj : dataset)
  (pat : string) :
  detect_mito re_search (detect_mito re_search obj pat) pat =
  detect_mito re_search obj pat.
Proof.
  unfold detect_mito at 2 3.
  destruct (mito_split re_search (exp_mat obj) pat) as [[rest mito]|] eqn:E.
  - unfold detect_mito. cbn [exp_mat set_exp_mito set_exp_mat].
    assert (Hnone : mito_split re_search rest pat = None).
    { unfold mito_split in E |- *.
      destruct (0 <? count_true (map (re_search pat true)
                                     (index (exp_mat obj)))); [|discriminate].
      injection E as <- _.
      rewrite all_false_count; [reflexivity|].
      intros b Hb. apply in_map_iff in Hb as [g [<- Hg]].
      apply loc_rows_index_In in Hg as [Hg _].
      rewrite map_map, mask_select_map in Hg.
      apply filter_In in Hg as [_ Hg].
      apply negb_true_iff in Hg. exact Hg. }
    rewrite Hnone. reflexivity.
  - unfold detect_mito. rewrite E. reflexivity.
Qed.

(** X6.  With unique gene labels, the two frames built by [detect_mito]
    are the rows of the input that do not match and the rows that match,
    each in the original order and with its values: label-based [.loc]
    coincides with masking. *)
Theorem mito_split_unique_labels
  (re_search : string -> bool -> string -> bool) (m : ExpMat) (pat : string) :
  unique_labels (index m) = true ->
  let mt := map (re_search pat true) (index m) in
  mito_split re_search m pat =
  if 0 <? count_true mt
  then Some (rows_where (map negb mt) m, rows_where mt m)
  else None.
Proof.
  intros Hu mt. apply unique_labels_NoDup in Hu.
  unfold mito_split. fold mt.
  destruct (0 <? count_true mt); [|reflexivity].
  rewrite !loc_rows_mask;
    try assumption; unfold mt; rewrite ?length_map; reflexivity.
Qed.

Lemma mito_split_unique_labels_witness :
  mito_split re_search_default counts_mito "^mt-" =
  Some (mkDF ["Actb"; "Gapdh"] ["c1"; "c2"] [[5; 6]; [7; 8]],
        mkDF ["mt-Co1"; "mt-Nd1"] ["c1"; "c2"] [[1; 2]; [3; 4]]).
Proof.
  apply (mito_split_unique_labels re_search_default counts_mito "^mt-").
  reflexivity.
Defined.

Lemma mask_split_permutation {A} (mask : list bool) (v : list A) :
  List.length mask = List.length v ->
  Permutation (mask_select (map negb mask) v ++ mask_select mask v) v.
Proof.
  revert v. induction mask as [|b mask IH]; intros [|x v] Hlen;
    try discriminate; [constructor|].
  simpl in Hlen. injection Hlen as Hlen.
  cbn [map]. rewrite !mask_select_cons. destruct b; cbn [negb].
  - apply Permutation_sym, Permutation_cons_app, Permutation_sym, IH.
    exact Hlen.
  - cbn [app]. constructor. apply IH. exact Hlen.
Qed.

(** X7.  The split of [detect_ERCC_spikes] neither loses nor repeats a
    row: the row labels of the remainder followed by those of the
    extracted frame are a rearrangement of the row labels of the input,
    and, when the input has one row of values per label, so are the rows
    of values. *)
Theorem ERCC_split_conserves_rows
  (re_search : string -> bool -> string -> bool) (m : ExpMat) (pat : string) :
  List.length (values m) = List.length (index m) ->
  Permutation (index (fst (ERCC_split re_search m pat)) ++
               index (snd (ERCC_split re_search m pat)))
              (index m) /\
  Permutation (values (fst (ERCC_split re_search m pat)) ++
               values (snd (ERCC_split re_search m pat)))
              (values m).
Proof.
  intros Hlen. unfold ERCC_split, rows_where. cbn [fst snd index values].
  split; apply mask_split_permutation; rewrite length_map; auto.
Qed.

Lemma ERCC_split_conserves_rows_witness :
  Permutation
    (index (fst (ERCC_split re_search_default counts_spiked "^ERCC[_-]\S+$")) ++
     index (snd (ERCC_split re_search_default counts_spiked "^ERCC[_-]\S+$")))
    (index counts_spiked) /\
  Permutation
    (values (fst (ERCC_split re_search_default counts_spiked "^ERCC[_-]\S+$")) ++
     values (snd (ERCC_split re_search_default counts_spiked "^ERCC[_-]\S+$")))
    (values counts_spiked).
Proof.
  apply (ERCC_split_conserves_rows re_search_default counts_spiked
                                   "^ERCC[_-]\S+$").
  reflexivity.
Defined.

Lemma filter_twice {A} (f : A -> bool) (l : list A) :
  filter f (filter f l) = filter f l.
Proof.
  induction l as [|x t IH]; simpl; [reflexivity|].
  destruct (f x) eqn:E; simpl; rewrite ?E, IH; reflexivity.
Qed.

Lemma mask_select_length_le {A B} (mask : list bool) (l : list A)
  (v : list B) :
  List.length mask = List.length l ->
  (List.length (mask_select mask v) <= List.length (mask_select mask l))%nat.
Proof.
  revert l v. induction mask as [|b mask IH]; intros [|x l] v Hlen;
    try discriminate; [destruct v; simpl; lia|].
  simpl in Hlen. injection Hlen as Hlen.
  destruct v as [|y v]; [rewrite mask_select_nil_r; simpl; lia|].
  rewrite !mask_select_cons. specialize (IH l v Hlen).
  destruct b; simpl; lia.
Qed.

Lemma mask_select_all_true {A} (mask : list bool) (v : list A) :
  (forall b, In b mask -> b = true) ->
  (List.length v <= List.length mask)%nat ->
  mask_select mask v = v.
Proof.
  revert v. induction mask as [|b mask IH]; intros [|x v] Hall Hlen;
    try reflexivity; [simpl in Hlen; lia|].
  rewrite mask_select_cons, (Hall b (or_introl eq_refl)).
  f_equal. apply IH.
  - intros c Hc. apply Hall. right. exact Hc.
  - simpl in Hlen. lia.
Qed.

(** X8.  [detect_ERCC_spikes] applied a second time with the same pattern
    changes nothing. *)
Theorem detect_ERCC_spikes_idempotent
  (re_search : string -> bool -> string -> bool) (obj : dataset)
  (pat : string) :
  detect_ERCC_spikes re_search (detect_ERCC_spikes re_search obj pat) pat =
  detect_ERCC_spikes re_search obj pat.
Proof.
  unfold detect_ERCC_spikes, ERCC_split.
  cbn [exp_mat set_exp_mat]. unfold set_exp_mat.
  cbn [exp_mat exp_mito exp_ERCC low_quality_cells norm_data assay].
  f_equal. unfold rows_where. cbn [index columns values].
  set (p := re_search pat false).
  set (idx := index (exp_mat obj)).
  set (mask := map negb (map p idx)).
  assert (Hidx : mask_select mask idx = filter (fun g => negb (p g)) idx)
    by (unfold mask; rewrite map_map; apply mask_select_map).
  f_equal.
  - rewrite Hidx, map_map, mask_select_map. apply filter_twice.
  - apply mask_select_all_true.
    + intros b Hb. rewrite Hidx, map_map in Hb.
      apply in_map_iff in Hb as [g [<- Hg]].
      apply filter_In in Hg as [_ Hg]. exact Hg.
    + rewrite !length_map. apply mask_select_length_le.
      unfold mask. rewrite !length_map. reflexivity.
Qed.

(** ** The SVD engine: shapes, labels and saturation *)

Lemma np_diag_nrows (s : list float64) : mat_nrows (np_diag s) = List.length s.
Proof. unfold mat_nrows, np_diag. rewrite length_map. apply length_seq. Qed.

Lemma np_diag_ncols (s : list float64) : mat_ncols (np_diag s) = List.length s.
Proof.
  unfold mat_ncols, np_diag. destruct s as [|x s]; [reflexivity|].
  cbn [List.length seq map hd]. rewrite length_map.
  cbn [List.length]. rewrite length_seq. reflexivity.
Qed.

Lemma matmul_nrows (a b : matrix) : mat_nrows (matmul a b) = mat_nrows a.
Proof. apply length_map. Qed.

Lemma matmul_ncols (a b : matrix) :
  mat_ncols (matmul a b) =
  match a with [] => 0%nat | _ :: _ => mat_ncols b end.
Proof.
  unfold mat_ncols at 1, matmul. destruct a as [|row a]; [reflexivity|].
  cbn [map hd]. rewrite length_map. apply length_seq.
Qed.

(** X9.  When the Lanczos routine returns [(U, s, V)], [irlb] raises
    [ValueError] if [V] does not have one column per singular value or if
    [U] does not have one row per gene, and otherwise returns [V . diag(s)]
    with rows and columns labelled by position (the cell labels are not
    used) and [abs(U)] with the genes as row labels. *)
Theorem irlb_result
  (lanczos : NormMat -> nat -> nat -> option Z -> result LanczosResult)
  (data_norm : NormMat) (k : nat) (seed : option Z) (lanc : LanczosResult) :
  lanczos data_norm k 1000%nat seed = Ok lanc ->
  irlb lanczos data_norm k seed =
  if negb (Nat.eqb (mat_ncols (lanc_V lanc)) (List.length (lanc_s lanc)))
  then Raise (ValueError "shapes not aligned")
  else if negb (Nat.eqb (shape0 data_norm) (mat_nrows (lanc_U lanc)))
  then Raise (ValueError "Shape of passed values does not match the index")
  else Ok (mkDF (range_index (mat_nrows (lanc_V lanc)))
                (range_index (match lanc_V lanc with
                              | [] => 0%nat
                              | _ :: _ => List.length (lanc_s lanc)
                              end))
                (matmul (lanc_V lanc) (np_diag (lanc_s lanc))),
           mkDF (map Name (index data_norm))
                (range_index (mat_ncols (lanc_U lanc)))
                (mat_abs (lanc_U lanc))).
Proof.
  intros H. unfold irlb. rewrite H. cbn [bind].
  unfold np_dot. rewrite np_diag_nrows.
  destruct (Nat.eqb (mat_ncols (lanc_V lanc)) (List.length (lanc_s lanc)));
    [|reflexivity].
  cbn [bind negb new_frame]. rewrite mat_nrows_abs. unfold shape0.
  destruct (Nat.eqb (List.length (index data_norm)) (mat_nrows (lanc_U lanc)));
    [|reflexivity].
  cbn [bind negb].
  rewrite matmul_nrows, matmul_ncols, np_diag_ncols, mat_ncols_abs.
  reflexivity.
Qed.

Lemma irlb_result_witness :
  irlb lanczos_of_diagonal norm_3x2 2 None =
  Ok (mkDF [Pos 0%nat; Pos 1%nat] [Pos 0%nat; Pos 1%nat]
           [[2%float; 0%float]; [0%float; 1%float]],
      mkDF [Name "g1"; Name "g2"; Name "g3"] [Pos 0%nat; Pos 1%nat]
           [[1%float; 0%float]; [0%float; 1%float]; [0%float; 0%float]]).
Proof.
  apply (@irlb_result lanczos_of_diagonal norm_3x2 2 None
           (mkLanczos (first_cols 2 (identity 3)) [2%float; 1%float]
                      (first_cols 2 (identity 2)))).
  reflexivity.
Defined.

Lemma first_cols_all (k : nat) (m : matrix) :
  (forall row, In row m -> (List.length row <= k)%nat) -> first_cols k m = m.
Proof.
  intros H. unfold first_cols. rewrite <- (map_id m) at 2.
  apply map_ext_in. intros row Hrow. apply firstn_all2. apply H. exact Hrow.
Qed.

Lemma mat_transpose_row_length (m : matrix) (row : list float64) :
  In row (mat_transpose m) -> List.length row = mat_nrows m.
Proof.
  unfold mat_transpose. intros H. apply in_map_iff in H as [j [<- _]].
  unfold mat_column. apply length_map.
Qed.

Lemma mat_ncols_transpose_le (m : matrix) :
  (mat_ncols (mat_transpose m) <= mat_nrows m)%nat.
Proof.
  unfold mat_ncols at 1. destruct (mat_transpose m) as [|row t] eqn:E;
    [simpl; lia|].
  cbn [hd]. rewrite (@mat_transpose_row_length m row); [lia|].
  rewrite E. left. reflexivity.
Qed.

Lemma svd_project_saturated (inp : DataFrame string string float64)
  (u : matrix) (d : list float64) (vh : matrix) (k : nat) :
  (mat_nrows vh <= k)%nat ->
  svd_project inp (u, d, vh) k =
  (retx <- frame_dot inp (mat_transpose vh) ;;
   contr1 <- new_frame (mat_abs (mat_transpose vh)) (Some (columns inp)) ;;
   Ok (retx, contr1)).
Proof.
  intros Hk. unfold svd_project. cbn [fst snd].
  rewrite (@first_cols_all k (mat_transpose vh)).
  - unfold frame_dot.
    destruct (Nat.eqb (shape1 inp) (mat_nrows (mat_transpose vh)));
      [|reflexivity].
    cbn [bind]. unfold iloc_first_cols. cbn [index columns values].
    pose proof (mat_ncols_transpose_le vh) as Hn.
    rewrite firstn_range_index, Nat.min_r by lia.
    fold (first_cols k (matmul (values inp) (mat_transpose vh))).
    rewrite first_cols_all; [reflexivity|].
    intros row Hrow. unfold matmul in Hrow.
    apply in_map_iff in Hrow as [r [<- _]].
    rewrite length_map, length_seq. lia.
  - intros row Hrow. rewrite (@mat_transpose_row_length _ _ Hrow). exact Hk.
Qed.

(** X10.  Once the number of components asked of [svd] reaches the number
    of rows of [vh], asking for more changes nothing: every such request
    returns the same components and contributions. *)
Theorem svd_request_saturates
  (linalg_svd : matrix -> result (matrix * list float64 * matrix))
  (data_norm : NormMat) (k k' : nat) (u : matrix) (d : list float64)
  (vh : matrix) :
  linalg_svd (values (transpose data_norm)) = Ok (u, d, vh) ->
  (mat_nrows vh <= k)%nat -> (mat_nrows vh <= k')%nat ->
  svd linalg_svd data_norm k = svd linalg_svd data_norm k'.
Proof.
  intros H Hk Hk'. unfold svd. rewrite H. cbn [bind].
  rewrite !svd_project_saturated by assumption. reflexivity.
Qed.

Lemma svd_request_saturates_witness :
  svd svd_of_diagonal norm_3x2 3 = svd svd_of_diagonal norm_3x2 75.
Proof.
  apply (@svd_request_saturates svd_of_diagonal norm_3x2 3 75
           (identity 2) [2%float; 1%float] (identity 3)).
  - reflexivity.
  - simpl. lia.
  - simpl. lia.
Defined.

(** X11.  [svd] returns a result exactly when the decomposition returns
    one whose [vh] has as many columns as the input has genes; the number
    of components plays no part. *)
Theorem svd_succeeds_iff
  (linalg_svd : matrix -> result (matrix * list float64 * matrix))
  (data_norm : NormMat) (k : nat) :
  is_ok (svd linalg_svd data_norm k) = true <->
  exists u d vh,
    linalg_svd (values (transpose data_norm)) = Ok (u, d, vh) /\
    mat_ncols vh = shape0 data_norm.
Proof.
  unfold svd.
  destruct (linalg_svd (values (transpose data_norm))) as [[[u d] vh]|e].
  - cbn [bind]. unfold svd_project, frame_dot, new_frame. cbn [fst snd].
    rewrite mat_nrows_abs, mat_nrows_first_cols, mat_nrows_transpose.
    change (shape1 (transpose data_norm)) with (shape0 data_norm).
    change (List.length (columns (transpose data_norm)))
      with (shape0 data_norm).
    destruct (Nat.eqb_spec (shape0 data_norm) (mat_ncols vh)) as [E|E];
      cbn [bind is_ok].
    + split; [|reflexivity]. intros _. exists u, d, vh. auto.
    + split; [discriminate|].
      intros [u' [d' [vh' [H E']]]]. injection H as <- <- <-. congruence.
  - cbn [bind is_ok]. split; [discriminate|].
    intros [u [d [vh [H _]]]]. discriminate.
Qed.

(** ** Dictionaries *)

Lemma dict_get_set_same {V} (key : string) (v : V) (d : list (string * V)) :
  dict_get key (dict_set key v d) = Ok v.
Proof.
  induction d as [|[k w] rest IH]; simpl.
  - rewrite String.eqb_refl. reflexivity.
  - destruct (String.eqb k key) eqn:E; simpl; rewrite E; [reflexivity|exact IH].
Qed.

Lemma dict_get_set_other {V} (key key' : string) (v : V)
  (d : list (string * V)) :
  key' <> key -> dict_get key' (dict_set key v d) = dict_get key' d.
Proof.
  intros Hne. induction d as [|[k w] rest IH]; simpl.
  - destruct (String.eqb_spec key key') as [->|_]; [contradiction|reflexivity].
  - destruct (String.eqb_spec k key) as [->|Hk]; simpl.
    + destruct (String.eqb_spec key key') as [->|_]; [contradiction|].
      reflexivity.
    + destruct (String.eqb k key'); [reflexivity | exact IH].
Qed.

Lemma dict_get_lacks {V} (key : string) (d : list (string * V)) :
  dict_lacks key d = true -> dict_get key d = Raise (KeyError key).
Proof.
  unfold dict_lacks. induction d as [|[k w] rest IH]; simpl; [reflexivity|].
  destruct (String.eqb k key); simpl; [discriminate | exact IH].
Qed.

(** Looking up [n] after every entry named [n] went through [g]. *)
Lemma dict_get_update {V} (n : string) (g : V -> V) (d : list (string * V)) :
  dict_get n (map (fun kv => if String.eqb (fst kv) n
                             then (fst kv, g (snd kv)) else kv) d)
  = match dict_get n d with
    | Ok w => Ok (g w)
    | Raise e => Raise e
    end.
Proof.
  induction d as [|[k w] rest IH]; simpl; [reflexivity|].
  destruct (String.eqb k n) eqn:E; simpl; rewrite E; [reflexivity|exact IH].
Qed.

(** ** The orchestrators *)

Section OrchestratorFacts.
Variable sklearn_scale : matrix -> result matrix.
Variable linalg_svd : matrix -> result (matrix * list float64 * matrix).
Variable lanczos : NormMat -> nat -> nat -> option Z -> result LanczosResult.
Variable umap_fit_transform : option Z -> matrix -> result matrix.

Lemma store_pca_inputs (k : string) (r : PcaResult) (obj : dataset) :
  reduction_inputs (store_pca k r obj) = reduction_inputs obj.
Proof.
  unfold reduction_inputs, store_pca, set_norm_data.
  cbn [exp_mat exp_mito exp_ERCC low_quality_cells norm_data].
  f_equal. rewrite map_map. apply map_ext. intros [name item].
  cbn [fst snd]. destruct (String.eqb name k); reflexivity.
Qed.

Lemma store_umap_inputs (k : string) (emb : ResMat) (obj : dataset) :
  reduction_inputs (store_umap k emb obj) = reduction_inputs obj.
Proof.
  unfold reduction_inputs, store_umap, set_norm_data.
  cbn [exp_mat exp_mito exp_ERCC low_quality_cells norm_data].
  f_equal. rewrite map_map. apply map_ext. intros [name item].
  cbn [fst snd]. destruct (String.eqb name k); reflexivity.
Qed.

Lemma pca_loop_inputs (method : string) (ncomp : nat) (allgenes scale : bool)
  (seed : option Z) (targets : list (string * NormItem)) (obj : dataset) :
  reduction_inputs
    (fst (pca_loop sklearn_scale linalg_svd lanczos method ncomp allgenes
                   scale seed targets obj))
  = reduction_inputs obj.
Proof.
  revert obj. induction targets as [|[k item] rest IH]; intros obj;
    cbn [pca_loop]; [reflexivity|].
  destruct (pca_target _ _ _ _ _ _ _ _ _) as [r|e]; [|reflexivity].
  rewrite IH. apply store_pca_inputs.
Qed.

Lemma umap_loop_inputs (run_on_PCA : bool) (seed : option Z)
  (targets : list (string * NormItem)) (obj : dataset) :
  reduction_inputs
    (fst (umap_loop umap_fit_transform run_on_PCA seed targets obj))
  = reduction_inputs obj.
Proof.
  revert obj. induction targets as [|[k item] rest IH]; intros obj;
    cbn [umap_loop]; [reflexivity|].
  destruct (umap_target _ _ _ _) as [emb|e]; [|reflexivity].
  rewrite IH. apply store_umap_inputs.
Qed.

Lemma umap_run_inputs (run_on_PCA : bool) (seed : option Z)
  (targets : list (string * NormItem)) (obj : dataset) :
  reduction_inputs
    (fst (umap_run umap_fit_transform run_on_PCA seed targets obj))
  = reduction_inputs obj.
Proof.
  unfold umap_run.
  pose proof (umap_loop_inputs run_on_PCA seed targets obj) as H.
  destruct (umap_loop _ _ _ _ _) as [obj' [e|]]; exact H.
Qed.

(** X12.  Whatever it is called with and however it ends, [pca] leaves the
    count matrices, the flagged cells and, for every normalisation, its
    name, its matrix and its highly variable genes as they were, in the
    same order: it writes only to the [dr] entries and to the history. *)
Theorem pca_preserves_inputs (obj : dataset) (method : string)
  (name : option string) (ncomp : nat) (allgenes scale : bool)
  (seed : option Z) :
  reduction_inputs
    (fst (pca sklearn_scale linalg_svd lanczos obj method name ncomp
              allgenes scale seed))
  = reduction_inputs obj.
Proof.
  unfold pca. destruct (norm_data obj) as [|kv rest] eqn:E; [reflexivity|].
  destruct (match name with None => true | Some n => String.eqb n "" end).
  - rewrite <- E. apply pca_loop_inputs.
  - destruct (dict_get _ _) as [item|e]; [|reflexivity].
    apply pca_loop_inputs.
Qed.

(** X13.  Whatever it is called with and however it ends, [umap] leaves
    the count matrices, the flagged cells and, for every normalisation, its
    name, its matrix and its highly variable genes as they were, in the
    same order. *)
Theorem umap_preserves_inputs (obj : dataset) (run_on_PCA : bool)
  (name : option string) (seed : option Z) :
  reduction_inputs (fst (umap umap_fit_transform obj run_on_PCA name seed))
  = reduction_inputs obj.
Proof.
  unfold umap. destruct (norm_data obj) as [|kv rest] eqn:E; [reflexivity|].
  destruct (match name with None => true | Some n => String.eqb n "" end).
  - rewrite <- E. apply umap_run_inputs.
  - destruct (dict_get _ _) as [item|e]; [|reflexivity].
    apply umap_run_inputs.
Qed.
End OrchestratorFacts.

Section OrchestratorErrors.
Variable sklearn_scale : matrix -> result matrix.
Variable linalg_svd : matrix -> result (matrix * list float64 * matrix).
Variable lanczos : NormMat -> nat -> nat -> option Z -> result LanczosResult.
Variable umap_fit_transform : option Z -> matrix -> result matrix.

Lemma pca_target_unknown_method (method : string) (ncomp : nat)
  (allgenes scale : bool) (seed : option Z) (item : NormItem) :
  String.eqb method "irlb" = false -> String.eqb method "svd" = false ->
  is_ok (pca_target sklearn_scale linalg_svd lanczos method ncomp allgenes
                    scale seed item) = false.
Proof.
  intros H1 H2. unfold pca_target, pca_dispatch. rewrite H1, H2.
  destruct (pca_input sklearn_scale allgenes scale item); reflexivity.
Qed.

Lemma pca_loop_first_fails (method : string) (ncomp : nat)
  (allgenes scale : bool) (seed : option Z) (k : string) (item : NormItem)
  (rest : list (string * NormItem)) (obj : dataset) :
  is_ok (pca_target sklearn_scale linalg_svd lanczos method ncomp allgenes
                    scale seed item) = false ->
  fst (pca_loop sklearn_scale linalg_svd lanczos method ncomp allgenes scale
                seed ((k, item) :: rest) obj) = obj /\
  snd (pca_loop sklearn_scale linalg_svd lanczos method ncomp allgenes scale
                seed ((k, item) :: rest) obj) <> None.
Proof.
  intros H. cbn [pca_loop].
  destruct (pca_target _ _ _ _ _ _ _ _ _) as [r|e]; [discriminate|].
  split; [reflexivity | discriminate].
Qed.

(** X14.  With a method name other than ['irlb'] and ['svd'], [pca] always
    ends with an exception and stores nothing: the dataset is returned as
    it was given. *)
Theorem pca_unknown_method_stores_nothing (obj : dataset) (method : string)
  (name : option string) (ncomp : nat) (allgenes scale : bool)
  (seed : option Z) :
  String.eqb method "irlb" = false -> String.eqb method "svd" = false ->
  fst (pca sklearn_scale linalg_svd lanczos obj method name ncomp allgenes
           scale seed) = obj /\
  snd (pca sklearn_scale linalg_svd lanczos obj method name ncomp allgenes
           scale seed) <> None.
Proof.
  intros H1 H2. unfold pca.
  destruct (norm_data obj) as [|[k item] rest];
    [split; [reflexivity | discriminate]|].
  destruct (match name with None => true | Some n => String.eqb n "" end).
  - apply pca_loop_first_fails. apply pca_target_unknown_method; assumption.
  - destruct (dict_get _ _) as [it|e]; [|split; [reflexivity|discriminate]].
    apply pca_loop_first_fails. apply pca_target_unknown_method; assumption.
Qed.

(** The entry of a named normalisation after a run of [pca] that came
    through. *)
Lemma pca_named_lookup (obj : dataset) (method n : string)
  (ncomp : nat) (allgenes scale : bool) (seed : option Z) (item : NormItem)
  (r : PcaResult) :
  String.eqb n "" = false ->
  dict_get n (norm_data obj) = Ok item ->
  pca_target sklearn_scale linalg_svd lanczos method ncomp allgenes scale
             seed item = Ok r ->
  let out := pca sklearn_scale linalg_svd lanczos obj method (Some n) ncomp
                 allgenes scale seed in
  snd out = None /\
  exists item',
    dict_get n (norm_data (fst out)) = Ok item' /\
    data item' = data item /\
    hvg_genes item' = hvg_genes item /\
    dict_get "pca" (dr item') = Ok (DrPca r) /\
    forall key, key <> "pca" -> dict_get key (dr item') = dict_get key (dr item).
Proof.
  intros Hn Hget Ht out. unfold out, pca.
  destruct (norm_data obj) as [|kv rest] eqn:E; [discriminate|].
  rewrite Hn, Hget. cbn [pca_loop]. rewrite Ht. cbn [fst snd].
  split; [reflexivity|].
  exists (mkItem (data item) (hvg_genes item)
                 (dict_set "pca" (DrPca r) (dr item))).
  split.
  - unfold set_assay, store_pca, set_norm_data. cbn [norm_data].
    rewrite E.
    rewrite (dict_get_update n
               (fun it => mkItem (data it) (hvg_genes it)
                                 (dict_set "pca" (DrPca r) (dr it)))).
    rewrite Hget. reflexivity.
  - cbn [data hvg_genes dr]. repeat split.
    + apply dict_get_set_same.
    + intros key Hkey. apply dict_get_set_other. exact Hkey.
Qed.

(** X15.  After [pca] came through for a named normalisation, looking that
    normalisation up gives its matrix and highly variable genes unchanged,
    the new result under ['pca'], and every other entry of [dr] (an
    earlier embedding, say) as it was: a recomputation overwrites the PCA
    entry and nothing else. *)
Theorem pca_named_stores_result (obj : dataset) (method n : string)
  (ncomp : nat) (allgenes scale : bool) (seed : option Z) (item : NormItem)
  (r : PcaResult) :
  String.eqb n "" = false ->
  dict_get n (norm_data obj) = Ok item ->
  pca_target sklearn_scale linalg_svd lanczos method ncomp allgenes scale
             seed item = Ok r ->
  let out := pca sklearn_scale linalg_svd lanczos obj method (Some n) ncomp
                 allgenes scale seed in
  snd out = None /\
  exists item',
    dict_get n (norm_data (fst out)) = Ok item' /\
    data item' = data item /\
    hvg_genes item' = hvg_genes item /\
    dict_get "pca" (dr item') = Ok (DrPca r) /\
    forall key, key <> "pca" -> dict_get key (dr item') = dict_get key (dr item).
Proof.
  intros Hn Hget Ht.
  exact (@pca_named_lookup obj method n ncomp allgenes scale seed item r
                           Hn Hget Ht).
Qed.

(** X16.  Asked for a normalisation that the dataset does not have, [pca]
    and [umap] both raise [KeyError] for that name and return the dataset
    as it was given. *)
Theorem missing_normalisation_is_key_error (obj : dataset) (method n : string)
  (ncomp : nat) (allgenes scale run_on_PCA : bool) (seed : option Z) :
  norm_data obj <> [] ->
  String.eqb n "" = false ->
  dict_lacks n (norm_data obj) = true ->
  pca sklearn_scale linalg_svd lanczos obj method (Some n) ncomp allgenes
      scale seed = (obj, Some (KeyError n)) /\
  umap umap_fit_transform obj run_on_PCA (Some n) seed
    = (obj, Some (KeyError n)).
Proof.
  intros Hne Hn Hl. apply dict_get_lacks in Hl. unfold pca, umap.
  destruct (norm_data obj) as [|kv rest]; [contradiction|].
  rewrite Hn, Hl. split; reflexivity.
Qed.

(** X17.  [umap] on the PCA components of a normalisation for which no PCA
    was stored raises [KeyError] for ['pca'] without calling the reducer,
    and returns the dataset as it was given. *)
Theorem umap_without_pca (obj : dataset) (n : string) (seed : option Z)
  (item : NormItem) :
  String.eqb n "" = false ->
  dict_get n (norm_data obj) = Ok item ->
  dict_lacks "pca" (dr item) = true ->
  umap umap_fit_transform obj true (Some n) seed
    = (obj, Some (KeyError "pca")).
Proof.
  intros Hn Hget Hl. apply dict_get_lacks in Hl. unfold umap.
  destruct (norm_data obj) as [|kv rest]; [discriminate|].
  rewrite Hn, Hget. unfold umap_run. cbn [umap_loop].
  unfold umap_target, umap_input. cbn [negb]. rewrite Hl. reflexivity.
Qed.

(** X18.  [pca] followed by [umap] on the same named normalisation: the
    reducer receives the components that [pca] stored, and afterwards the
    normalisation holds both the PCA result and, under ['umap'], the
    embedding as a frame labelled by position. *)
Theorem pca_then_umap (obj : dataset) (method n : string) (ncomp : nat)
  (allgenes scale : bool) (seed seed' : option Z) (item : NormItem)
  (r : PcaResult) (emb : matrix) :
  String.eqb n "" = false ->
  dict_get n (norm_data obj) = Ok item ->
  pca_target sklearn_scale linalg_svd lanczos method ncomp allgenes scale
             seed item = Ok r ->
  umap_fit_transform seed' (values (comp r)) = Ok emb ->
  let obj1 := fst (pca sklearn_scale linalg_svd lanczos obj method (Some n)
                       ncomp allgenes scale seed) in
  let out := umap umap_fit_transform obj1 true (Some n) seed' in
  snd out = None /\
  exists item2,
    dict_get n (norm_data (fst out)) = Ok item2 /\
    data item2 = data item /\
    dict_get "pca" (dr item2) = Ok (DrPca r) /\
    dict_get "umap" (dr item2) =
      Ok (DrEmbedding (mkDF (range_index (mat_nrows emb))
                            (range_index (mat_ncols emb)) emb)).
Proof.
  intros Hn Hget Ht Hfit obj1 out.
  destruct (@pca_named_lookup obj method n ncomp allgenes scale seed item r
              Hn Hget Ht) as [_ [item1 [Hget1 [Hd1 [_ [Hp1 _]]]]]].
  fold obj1 in Hget1.
  unfold out, umap.
  destruct (norm_data obj1) as [|kv rest] eqn:E; [discriminate|].
  rewrite Hn, Hget1. unfold umap_run. cbn [umap_loop].
  unfold umap_target, umap_input. cbn [negb].
  rewrite Hp1. cbn [bind]. rewrite Hfit. cbn [bind new_frame fst snd].
  split; [reflexivity|].
  exists (mkItem (data item1) (hvg_genes item1)
                 (dict_set "umap"
                    (DrEmbedding (mkDF (range_index (mat_nrows emb))
                                       (range_index (mat_ncols emb)) emb))
                    (dr item1))).
  split.
  - unfold set_assay, store_umap, set_norm_data. cbn [norm_data].
    rewrite E.
    rewrite (dict_get_update n
               (fun it => mkItem (data it) (hvg_genes it)
                                 (dict_set "umap"
                                    (DrEmbedding
                                       (mkDF (range_index (mat_nrows emb))
                                             (range_index (mat_ncols emb))
                                             emb))
                                    (dr it)))).
    rewrite Hget1. reflexivity.
  - cbn [data dr]. repeat split.
    + exact Hd1.
    + rewrite dict_get_set_other by discriminate. exact Hp1.
    + apply dict_get_set_same.
Qed.
End OrchestratorErrors.

Lemma pca_unknown_method_stores_nothing_witness :
  fst (pca standardize svd_of_diagonal lanczos_of_diagonal normalised_dataset
           "pca" None 2 false true None) = normalised_dataset /\
  snd (pca standardize svd_of_diagonal lanczos_of_diagonal normalised_dataset
           "pca" None 2 false true None) <> None.
Proof.
  apply (@pca_unknown_method_stores_nothing standardize svd_of_diagonal
           lanczos_of_diagonal normalised_dataset "pca" None 2 false true
           None); reflexivity.
Defined.

Lemma pca_named_stores_result_witness :
  let out := pca standardize svd_of_diagonal lanczos_of_diagonal
                 normalised_dataset "svd" (Some "standard") 2 false true
                 None in
  snd out = None /\
  exists item',
    dict_get "standard" (norm_data (fst out)) = Ok item' /\
    data item' = data item_2x2 /\
    hvg_genes item' = hvg_genes item_2x2 /\
    dict_get "pca" (dr item') = Ok (DrPca pca_result_2x2) /\
    forall key, key <> "pca" ->
                dict_get key (dr item') = dict_get key (dr item_2x2).
Proof.
  apply (@pca_named_stores_result standardize svd_of_diagonal
           lanczos_of_diagonal normalised_dataset "svd" "standard" 2 false
           true None item_2x2 pca_result_2x2); reflexivity.
Defined.

Lemma missing_normalisation_is_key_error_witness :
  pca standardize svd_of_diagonal lanczos_of_diagonal normalised_dataset
      "svd" (Some "log2") 2 false true None
    = (normalised_dataset, Some (KeyError "log2")) /\
  umap first_two_columns normalised_dataset true (Some "log2") None
    = (normalised_dataset, Some (KeyError "log2")).
Proof.
  apply (@missing_normalisation_is_key_error standardize svd_of_diagonal
           lanczos_of_diagonal first_two_columns normalised_dataset "svd"
           "log2" 2 false true true None).
  - discriminate.
  - reflexivity.
  - reflexivity.
Defined.

Lemma umap_without_pca_witness :
  umap first_two_columns normalised_dataset true (Some "standard") None
    = (normalised_dataset, Some (KeyError "pca")).
Proof.
  apply (@umap_without_pca first_two_columns normalised_dataset "standard"
           None item_2x2); reflexivity.
Defined.

Lemma pca_then_umap_witness :
  let obj1 := fst (pca standardize svd_of_diagonal lanczos_of_diagonal
                       normalised_dataset "svd" (Some "standard") 2 false
                       true None) in
  let out := umap first_two_columns obj1 true (Some "standard") (Some 7) in
  snd out = None /\
  exists item2,
    dict_get "standard" (norm_data (fst out)) = Ok item2 /\
    data item2 = data item_2x2 /\
    dict_get "pca" (dr item2) = Ok (DrPca pca_result_2x2) /\
    dict_get "umap" (dr item2) =
      Ok (DrEmbedding
            (mkDF (range_index 2) (range_index 2)
                  [[2%float; 0%float]; [0%float; 1%float]])).
Proof.
  apply (@pca_then_umap standardize svd_of_diagonal lanczos_of_diagonal
           first_two_columns normalised_dataset "svd" "standard" 2 false
           true None (Some 7) item_2x2 pca_result_2x2
           [[2%float; 0%float]; [0%float; 1%float]]); reflexivity.
Defined.

Lemma dict_set_not_lacking {V} (key : string) (v : V) (d : list (string * V)) :
  dict_lacks key (dict_set key v d) = false.
Proof.
  unfold dict_lacks. apply negb_false_iff.
  induction d as [|[k w] rest IH]; simpl.
  - rewrite String.eqb_refl. reflexivity.
  - destruct (String.eqb k key) eqn:E; simpl; rewrite E; [reflexivity|exact IH].
Qed.

Section EveryTarget.
Variable sklearn_scale : matrix -> result matrix.
Variable linalg_svd : matrix -> result (matrix * list float64 * matrix).
Variable lanczos : NormMat -> nat -> nat -> option Z -> result LanczosResult.

Lemma store_pca_covered (done : list string) (k : string) (r : PcaResult)
  (obj : dataset) :
  covered done obj ->
  covered (done ++ [k]) (set_assay "pca" (Some (method_used r))
                                   (store_pca k r obj)).
Proof.
  unfold covered. intros H k' item' Hin Hdone.
  unfold set_assay, store_pca, set_norm_data in Hin. cbn [norm_data] in Hin.
  apply in_map_iff in Hin as [[k0 item0] [Heq Hin0]]. cbn [fst snd] in Heq.
  destruct (String.eqb_spec k0 k) as [->|Hne].
  - injection Heq as <- <-. cbn [dr]. apply dict_set_not_lacking.
  - injection Heq as <- <-. apply (H k0 item0 Hin0).
    apply in_app_or in Hdone as [Hd|[Hd|[]]]; [exact Hd|].
    subst. contradiction.
Qed.

Lemma pca_loop_covered (method : string) (ncomp : nat)
  (allgenes scale : bool) (seed : option Z)
  (targets : list (string * NormItem)) :
  forall (done : list string) (obj : dataset),
  covered done obj ->
  snd (pca_loop sklearn_scale linalg_svd lanczos method ncomp allgenes scale
                seed targets obj) = None ->
  covered (done ++ map fst targets)
          (fst (pca_loop sklearn_scale linalg_svd lanczos method ncomp
                         allgenes scale seed targets obj)).
Proof.
  induction targets as [|[k item] rest IH]; intros done obj Hc Hok.
  - cbn [pca_loop fst map]. rewrite app_nil_r. exact Hc.
  - cbn [pca_loop] in *.
    destruct (pca_target sklearn_scale linalg_svd lanczos method ncomp
                         allgenes scale seed item) as [r|e] eqn:Ht;
      [|discriminate].
    cbn [map fst]. change (k :: map fst rest) with ([k] ++ map fst rest).
    rewrite app_assoc. apply IH; [|exact Hok].
    assert (Hm : method_used r = method).
    { unfold pca_target in Ht.
      destruct (pca_input _ _ _ _); cbn [bind] in Ht; [|discriminate].
      destruct (pca_dispatch _ _ _ _ _ _); cbn [bind] in Ht; [|discriminate].
      injection Ht as <-. reflexivity. }
    rewrite <- Hm. apply store_pca_covered. exact Hc.
Qed.

(** X19.  When [pca] is run on all normalisations and returns without an
    exception, every normalisation of the dataset has an entry ['pca'] in
    its [dr] dictionary afterwards. *)
Theorem pca_all_covers_every_normalisation (obj : dataset) (method : string)
  (ncomp : nat) (allgenes scale : bool) (seed : option Z) :
  snd (pca sklearn_scale linalg_svd lanczos obj method None ncomp allgenes
           scale seed) = None ->
  forall k item,
    In (k, item)
       (norm_data (fst (pca sklearn_scale linalg_svd lanczos obj method None
                            ncomp allgenes scale seed))) ->
    dict_lacks "pca" (dr item) = false.
Proof.
  unfold pca. destruct (norm_data obj) as [|kv rest] eqn:E; [discriminate|].
  rewrite <- E. intros Hok k item Hin.
  pose proof (pca_loop_inputs sklearn_scale linalg_svd lanczos method ncomp
                allgenes scale seed (norm_data obj) obj) as Hinp.
  assert (Hkeys :
    map fst (norm_data (fst (pca_loop sklearn_scale linalg_svd lanczos method
                               ncomp allgenes scale seed (norm_data obj) obj)))
    = map fst (norm_data obj)).
  { unfold reduction_inputs in Hinp. injection Hinp as _ _ _ _ Hnd.
    apply (f_equal (map (fun t => fst (fst t)))) in Hnd.
    rewrite !map_map in Hnd. exact Hnd. }
  assert (Hcov : covered ([] ++ map fst (norm_data obj))
                  (fst (pca_loop sklearn_scale linalg_svd lanczos method
                          ncomp allgenes scale seed (norm_data obj) obj))).
  { apply pca_loop_covered; [|exact Hok]. intros k0 item0 _ []. }
  apply (Hcov k item Hin). cbn [app]. rewrite <- Hkeys.
  apply (in_map fst) in Hin. exact Hin.
Qed.
End EveryTarget.

Lemma pca_all_covers_every_normalisation_witness :
  snd (pca standardize svd_of_diagonal lanczos_of_diagonal two_normalisations
           "svd" None 2 false true None) = None /\
  forall k item,
    In (k, item)
       (norm_data (fst (pca standardize svd_of_diagonal lanczos_of_diagonal
                            two_normalisations "svd" None 2 false true None))) ->
    dict_lacks "pca" (dr item) = false.
Proof.
  split; [reflexivity|].
  apply (@pca_all_covers_every_normalisation standardize svd_of_diagonal
           lanczos_of_diagonal two_normalisations "svd" 2 false true None).
  reflexivity.
Defined.

(** ** [remove_empty] with unique labels, and on square matrices *)

Lemma remove_empty_steps (obj : dataset) :
  exp_mat (remove_empty obj) =
  let m := exp_mat obj in
  let m1 := if 0 <? count_true (cells_hit m)
            then getitem_cols (mask_select (map negb (cells_hit m)) (columns m)) m
            else m in
  if 0 <? count_true (genes_hit m)
  then loc_rows (mask_select (map negb (genes_hit m)) (index m1)) m1
  else m1.
Proof. reflexivity. Qed.

Lemma count_not_positive (mask : list bool) :
  (0 <? count_true mask) = false -> forall b, In b (map negb mask) -> b = true.
Proof.
  intros H b Hb. apply Z.ltb_ge in H.
  pose proof (count_true_nonneg mask) as Hn.
  assert (Hz : count_true mask = 0) by lia.
  rewrite count_true_zero in Hz.
  apply in_map_iff in Hb as [c [<- Hc]]. rewrite (Hz c Hc). reflexivity.
Qed.

Lemma cells_hit_length (m : ExpMat) :
  List.length (cells_hit m) = List.length (columns m).
Proof.
  unfold cells_hit, column_list, shape1. cbn [columns].
  rewrite !length_map, length_seq. reflexivity.
Qed.

Lemma genes_hit_length (m : ExpMat) :
  List.length (genes_hit m) = List.length (values m).
Proof. unfold genes_hit. rewrite !length_map. reflexivity. Qed.

(** [remove_empty] as two maskings, under unique labels. *)
Lemma remove_empty_masks (obj : dataset) :
  unique_labels (columns (exp_mat obj)) = true ->
  unique_labels (index (exp_mat obj)) = true ->
  well_formed (exp_mat obj) = true ->
  let m := exp_mat obj in
  let cm := map negb (cells_hit m) in
  let gm := map negb (genes_hit m) in
  exp_mat (remove_empty obj) =
  mkDF (mask_select gm (index m)) (mask_select cm (columns m))
       (mask_select gm (map (mask_select cm) (values m))).
Proof.
  intros Hc Hi Hwf m cm gm.
  apply unique_labels_NoDup in Hc. apply unique_labels_NoDup in Hi.
  apply well_formed_rows in Hwf as [Hlen Hrows].
  rewrite remove_empty_steps. cbv zeta. fold m. fold cm. fold gm.
  assert (Hcm : List.length cm = List.length (columns m))
    by (unfold cm; rewrite length_map; apply cells_hit_length).
  assert (Hgm : List.length gm = List.length (index m))
    by (unfold gm; rewrite length_map, genes_hit_length; exact Hlen).
  set (m1 := mkDF (index m) (mask_select cm (columns m))
                  (map (mask_select cm) (values m))).
  assert (H1 : (if 0 <? count_true (cells_hit m)
                then getitem_cols (mask_select cm (columns m)) m else m) = m1).
  { destruct (0 <? count_true (cells_hit m)) eqn:E.
    - apply getitem_cols_mask; assumption.
    - pose proof (count_not_positive _ E) as Hall. fold cm in Hall.
      unfold m1.
      rewrite (mask_select_all_true cm (columns m));
        [|exact Hall | rewrite Hcm; apply Nat.le_refl].
      rewrite (map_ext_in (mask_select cm) (fun row => row)).
      + rewrite map_id. destruct m; reflexivity.
      + intros row Hrow. apply mask_select_all_true; [exact Hall|].
        rewrite (Hrows row Hrow), Hcm. apply Nat.le_refl. }
  rewrite H1.
  destruct (0 <? count_true (genes_hit m)) eqn:E.
  - rewrite (loc_rows_mask m1 gm Hi Hgm). reflexivity.
  - unfold m1 at 1.
    pose proof (count_not_positive _ E) as Hall. fold gm in Hall.
    rewrite (mask_select_all_true gm (index m));
      [|exact Hall | rewrite Hgm; apply Nat.le_refl].
    rewrite (mask_select_all_true gm (map (mask_select cm) (values m)));
      [reflexivity | exact Hall |].
    rewrite length_map, Hgm. unfold m. rewrite Hlen. apply Nat.le_refl.
Qed.

(** X20.  With unique gene and cell labels on a well-formed matrix,
    [remove_empty] keeps exactly the columns that fail its column test and
    then the rows that fail its row test (both tests taken on the input),
    in their original order and with their values. *)
Theorem remove_empty_unique_labels (obj : dataset) :
  unique_labels (columns (exp_mat obj)) = true ->
  unique_labels (index (exp_mat obj)) = true ->
  well_formed (exp_mat obj) = true ->
  let m := exp_mat obj in
  let cm := map negb (cells_hit m) in
  let gm := map negb (genes_hit m) in
  exp_mat (remove_empty obj) =
  mkDF (mask_select gm (index m)) (mask_select cm (columns m))
       (mask_select gm (map (mask_select cm) (values m))).
Proof.
  intros Hc Hi Hwf.
  exact (remove_empty_masks obj Hc Hi Hwf).
Qed.

Lemma remove_empty_unique_labels_witness :
  exp_mat (remove_empty (empty_dataset counts_one_hit)) =
  mkDF ["g1"; "g2"; "g3"] ["c1"; "c2"; "c3"; "c4"; "c5"]
       [[1; 2; 1; 3; 4]; [5; 1; 2; 1; 2]; [3; 1; 1; 2; 3]].
Proof.
  apply (remove_empty_unique_labels (empty_dataset counts_one_hit));
    reflexivity.
Defined.

Lemma mask_select_nth {A} (mask : list bool) :
  forall (l : list A) (j' : nat),
  List.length l = List.length mask ->
  (j' < List.length (mask_select mask l))%nat ->
  exists j, nth_error mask j = Some true /\
            forall v : list Z, List.length v = List.length mask ->
                               nth_error (mask_select mask v) j' = nth_error v j.
Proof.
  induction mask as [|b mask IH]; intros [|a t] j' Hlen Hj;
    try discriminate; [simpl in Hj; lia|].
  simpl in Hlen. injection Hlen as Hlen.
  rewrite mask_select_cons in Hj. destruct b.
  - destruct j' as [|j''].
    + exists 0%nat. split; [reflexivity|].
      intros [|y v] Hv; [discriminate|]. rewrite mask_select_cons. reflexivity.
    + simpl in Hj. destruct (IH t j'' Hlen) as [j0 [Hm Hv0]]; [lia|].
      exists (S j0). split; [exact Hm|].
      intros [|y v] Hv; [discriminate|]. simpl in Hv. injection Hv as Hv.
      rewrite mask_select_cons. cbn [nth_error]. apply Hv0. exact Hv.
  - destruct (IH t j' Hlen Hj) as [j0 [Hm Hv0]].
    exists (S j0). split; [exact Hm|].
    intros [|y v] Hv; [discriminate|]. simpl in Hv. injection Hv as Hv.
    rewrite mask_select_cons. cbn [nth_error]. apply Hv0. exact Hv.
Qed.

Lemma count_true_full_or_false (mask : list bool) :
  In false mask \/ count_true mask = Z.of_nat (List.length mask).
Proof.
  unfold count_true. induction mask as [|b mask IH]; [right; reflexivity|].
  destruct b; [|left; left; reflexivity].
  destruct IH as [H|H]; [left; right; exact H|].
  right. cbn [filter List.length]. lia.
Qed.

Lemma count_true_with_false (mask : list bool) :
  In false mask -> count_true mask < Z.of_nat (List.length mask).
Proof.
  unfold count_true. induction mask as [|b mask IH]; intros H; [destruct H|].
  pose proof (filter_length_le (fun b : bool => b) mask) as Hle.
  destruct b; cbn [filter List.length].
  - destruct H as [H|H]; [discriminate|]. specialize (IH H). lia.
  - lia.
Qed.

Lemma column_length_full {I C V} (j : nat) (df : DataFrame I C V) :
  (forall row, In row (values df) -> (j < List.length row)%nat) ->
  List.length (column j df) = List.length (values df).
Proof.
  unfold column. induction (values df) as [|row rows IH]; intros H;
    [reflexivity|].
  cbn [flat_map]. rewrite length_app, IH.
  - destruct (nth_error row j) eqn:E; [reflexivity|].
    apply nth_error_None in E. specialize (H row (or_introl eq_refl)). lia.
  - intros r Hr. apply H. right. exact Hr.
Qed.

Lemma column_In {I C V} (j : nat) (df : DataFrame I C V) (x : V) :
  In x (column j df) <->
  exists row, In row (values df) /\ nth_error row j = Some x.
Proof.
  unfold column. rewrite in_flat_map. split.
  - intros [row [Hrow Hx]]. exists row. split; [exact Hrow|].
    destruct (nth_error row j); [|destruct Hx].
    destruct Hx as [->|[]]. reflexivity.
  - intros [row [Hrow Hx]]. exists row. split; [exact Hrow|].
    rewrite Hx. left. reflexivity.
Qed.

Section SquareMatrix.
Variable m : ExpMat.
Hypothesis Hlen : List.length (values m) = List.length (index m).
Hypothesis Hrows :
  forall row, In row (values m) -> List.length row = List.length (columns m).
Hypothesis Hsquare : shape0 m = shape1 m.

Lemma gene_kept_iff (i : nat) (row : list Z) :
  nth_error (values m) i = Some row ->
  nth_error (map negb (genes_hit m)) i =
  Some (negb (count_true (map (fun x => x =? 0) row) =? Z.of_nat (shape0 m))).
Proof.
  intros H. unfold genes_hit. rewrite !nth_error_map, H. reflexivity.
Qed.

Lemma cell_kept_iff (j : nat) :
  (j < shape1 m)%nat ->
  nth_error (map negb (cells_hit m)) j =
  Some (negb (count_true
                (column j (mkDF (index m) (columns m)
                                (map (map (fun x => x =? 0)) (values m))))
              =? Z.of_nat (shape1 m))).
Proof.
  intros Hj. unfold cells_hit, column_list. rewrite !map_map.
  change (shape1 (mkDF (index m) (columns m)
                       (map (map (fun x => x =? 0)) (values m))))
    with (shape1 m).
  rewrite nth_error_map_seq. apply Nat.ltb_lt in Hj. rewrite Hj. reflexivity.
Qed.

(** A value other than zero keeps its row and its column. *)
Lemma nonzero_entry_kept (i j : nat) (row : list Z) (x : Z) :
  nth_error (values m) i = Some row -> nth_error row j = Some x -> x <> 0 ->
  nth_error (map negb (genes_hit m)) i = Some true /\
  nth_error (map negb (cells_hit m)) j = Some true.
Proof.
  intros Hi Hj Hx.
  assert (Hin : In row (values m)) by (eapply nth_error_In; exact Hi).
  assert (Hjlt : (j < shape1 m)%nat).
  { unfold shape1. rewrite <- (Hrows row Hin). apply nth_error_Some.
    congruence. }
  assert (Hf : nth_error (map (fun x => x =? 0) row) j = Some false).
  { rewrite nth_error_map, Hj. cbn. f_equal. apply Z.eqb_neq. exact Hx. }
  split.
  - rewrite (gene_kept_iff i Hi). f_equal. apply negb_true_iff, Z.eqb_neq.
    pose proof (count_true_with_false _ (nth_error_In _ _ Hf)) as Hlt.
    rewrite length_map, (Hrows row Hin) in Hlt.
    unfold shape0, shape1 in *. lia.
  - rewrite (cell_kept_iff Hjlt). f_equal. apply negb_true_iff, Z.eqb_neq.
    set (dz := mkDF (index m) (columns m)
                    (map (map (fun x => x =? 0)) (values m))).
    assert (Hfc : In false (column j dz)).
    { apply column_In. exists (map (fun x => x =? 0) row). split; [|exact Hf].
      unfold dz. cbn [values]. apply in_map. exact Hin. }
    pose proof (count_true_with_false _ Hfc) as Hlt.
    pose proof (column_length_le j dz) as Hle.
    unfold dz in Hle at 2. cbn [values] in Hle. rewrite length_map in Hle.
    clearbody dz. unfold shape0, shape1 in *. lia.
Qed.

Lemma kept_gene_has_read (i : nat) (row : list Z) :
  nth_error (values m) i = Some row ->
  nth_error (map negb (genes_hit m)) i = Some true ->
  exists j x, nth_error row j = Some x /\ x <> 0.
Proof.
  intros Hi Hk. rewrite (gene_kept_iff i Hi) in Hk. injection Hk as Hk.
  apply negb_true_iff, Z.eqb_neq in Hk.
  assert (Hin : In row (values m)) by (eapply nth_error_In; exact Hi).
  destruct (count_true_full_or_false (map (fun x => x =? 0) row)) as [H|H].
  - apply In_nth_error in H as [j Hj]. rewrite nth_error_map in Hj.
    destruct (nth_error row j) as [x|] eqn:E; [|discriminate].
    exists j, x. split; [exact E|]. cbn in Hj. injection Hj as Hj.
    apply Z.eqb_neq. exact Hj.
  - rewrite length_map, (Hrows row Hin) in H.
    unfold shape0, shape1 in *. lia.
Qed.

Lemma kept_cell_has_read (j : nat) :
  nth_error (map negb (cells_hit m)) j = Some true ->
  exists i row x,
    nth_error (values m) i = Some row /\ nth_error row j = Some x /\ x <> 0.
Proof.
  intros Hk.
  assert (Hjlt : (j < shape1 m)%nat).
  { unfold shape1. rewrite <- cells_hit_length.
    rewrite <- (length_map negb). apply nth_error_Some. congruence. }
  rewrite (cell_kept_iff Hjlt) in Hk. injection Hk as Hk.
  apply negb_true_iff, Z.eqb_neq in Hk.
  set (dz := mkDF (index m) (columns m)
                  (map (map (fun x => x =? 0)) (values m))) in *.
  destruct (count_true_full_or_false (column j dz)) as [H|H].
  - apply column_In in H as [zrow [Hz Hf]].
    unfold dz in Hz. cbn [values] in Hz.
    apply in_map_iff in Hz as [row [<- Hrow]].
    rewrite nth_error_map in Hf.
    destruct (nth_error row j) as [x|] eqn:E; [|discriminate].
    apply In_nth_error in Hrow as [i Hi].
    exists i, row, x. split; [exact Hi|]. split; [exact E|].
    cbn in Hf. injection Hf as Hf. apply Z.eqb_neq. exact Hf.
  - rewrite column_length_full in H.
    + unfold dz in H at 2. cbn [values] in H. rewrite length_map in H.
      clearbody dz. unfold shape0, shape1 in *. lia.
    + intros zrow Hz. unfold dz in Hz. cbn [values] in Hz.
      apply in_map_iff in Hz as [row [<- Hrow]].
      rewrite length_map, (Hrows row Hrow). exact Hjlt.
Qed.
End SquareMatrix.

(** X21.  On a well-formed square matrix (as many genes as cells) with
    unique labels, [remove_empty] does what its name says: every row of
    the result has a value other than zero, and so has every column. *)
Theorem remove_empty_square_is_clean (obj : dataset) :
  unique_labels (columns (exp_mat obj)) = true ->
  unique_labels (index (exp_mat obj)) = true ->
  well_formed (exp_mat obj) = true ->
  shape0 (exp_mat obj) = shape1 (exp_mat obj) ->
  (forall row, In row (values (exp_mat (remove_empty obj))) ->
               exists x, In x row /\ x <> 0) /\
  (forall j, (j < shape1 (exp_mat (remove_empty obj)))%nat ->
             exists row x, In row (values (exp_mat (remove_empty obj))) /\
                           nth_error row j = Some x /\ x <> 0).
Proof.
  intros Hc Hi Hwf Hsq.
  rewrite (remove_empty_masks obj Hc Hi Hwf). cbv zeta.
  apply well_formed_rows in Hwf as [Hlen Hrows].
  set (m := exp_mat obj) in *.
  set (cm := map negb (cells_hit m)).
  set (gm := map negb (genes_hit m)).
  unfold shape1. cbn [values columns].
  assert (Hcm : List.length cm = List.length (columns m))
    by (unfold cm; rewrite length_map; apply cells_hit_length).
  split.
  - intros row' Hrow'.
    apply mask_select_In in Hrow' as [i [Hg Hr]].
    rewrite nth_error_map in Hr.
    destruct (nth_error (values m) i) as [row|] eqn:Ei; [|discriminate].
    cbn in Hr. injection Hr as <-.
    destruct (@kept_gene_has_read m Hlen Hrows Hsq i row Ei Hg)
      as [j [x [Hj Hx]]].
    destruct (@nonzero_entry_kept m Hlen Hrows Hsq i j row x Ei Hj Hx)
      as [_ Hcj].
    exists x. split; [|exact Hx].
    apply mask_select_In. exists j. split; [exact Hcj | exact Hj].
  - intros j' Hj'.
    destruct (@mask_select_nth _ cm (columns m) j' (eq_sym Hcm) Hj')
      as [j [Hcj Hpos]].
    destruct (@kept_cell_has_read m Hlen Hrows Hsq j Hcj)
      as [i [row [x [Ei [Hj Hx]]]]].
    destruct (@nonzero_entry_kept m Hlen Hrows Hsq i j row x Ei Hj Hx)
      as [Hgi _].
    exists (mask_select cm row), x. repeat split; [| |exact Hx].
    + apply mask_select_In. exists i. split; [exact Hgi|].
      rewrite nth_error_map, Ei. reflexivity.
    + rewrite Hpos; [exact Hj|].
      rewrite Hcm. apply Hrows. eapply nth_error_In. exact Ei.
Qed.

Lemma remove_empty_square_is_clean_witness :
  (forall row,
      In row (values (exp_mat (remove_empty (empty_dataset counts_square)))) ->
      exists x, In x row /\ x <> 0) /\
  (forall j,
      (j < shape1 (exp_mat (remove_empty (empty_dataset counts_square))))%nat ->
      exists row x,
        In row (values (exp_mat (remove_empty (empty_dataset counts_square))))
        /\ nth_error row j = Some x /\ x <> 0).
Proof.
  apply (remove_empty_square_is_clean (empty_dataset counts_square));
    reflexivity.
Defined.

Example remove_empty_square_example :
  exp_mat (remove_empty (empty_dataset counts_square)) =
  mkDF ["g1"; "g3"] ["c1"; "c3"] [[1; 2]; [3; 4]].
Proof. reflexivity. Qed.
